(** * UNGM tender scraper: a shallow embedding of [scraper.py]

    The development follows the class [UNGMScraper]:
    - Python text ([str]) primitives used by the scraper,
    - [assess_difficulty], the difficulty classifier,
    - the row loop of [search_tenders_selenium], the record normaliser,
    - [filter_top_tenders], the shortlist ranker (a pandas pipeline),
    - [update_google_sheets], the store reconciler (gspread calls),
    - [run], the orchestrator.

    Tender records are Python dictionaries keyed by field name; they are
    modelled as finite maps from strings to values. *)

From Stdlib Require Import ZArith Ascii String List Lia ZifyBool.
From Stdlib Require Import Sorting.Sorted Sorting.Permutation.
From stdpp Require Import base option list sorting gmap strings.

Local Open Scope string_scope.
Local Open Scope list_scope.
Local Open Scope Z_scope.

(** ** Python text primitives *)

Module PyStr.

(** Characters are read as code points U+0000..U+00FF. *)

(** [str.isspace] on one code point, as used by [str.strip]. *)
Definition is_space (c : ascii) : bool :=
  let n := N_of_ascii c in
  ((9 <=? n)%N && (n <=? 13)%N)
  || ((28 <=? n)%N && (n <=? 32)%N)
  || (n =? 133)%N || (n =? 160)%N.

(** [str.lower] on one code point. *)
Definition lower_char (c : ascii) : ascii :=
  let n := N_of_ascii c in
  if ((65 <=? n)%N && (n <=? 90)%N)
     || ((192 <=? n)%N && (n <=? 222)%N && negb (n =? 215)%N)
  then ascii_of_N (n + 32)
  else c.

Fixpoint lower (s : string) : string :=
  match s with
  | EmptyString => EmptyString
  | String c s' => String (lower_char c) (lower s')
  end.

Fixpoint lstrip (s : string) : string :=
  match s with
  | EmptyString => EmptyString
  | String c s' => if is_space c then lstrip s' else s
  end.

Fixpoint reverse_onto (s acc : string) : string :=
  match s with
  | EmptyString => acc
  | String c s' => reverse_onto s' (String c acc)
  end.

Definition reverse (s : string) : string := reverse_onto s EmptyString.

Definition rstrip (s : string) : string := reverse (lstrip (reverse s)).

(** [s.strip()] *)
Definition strip (s : string) : string := rstrip (lstrip s).

(** [s.startswith(p)] *)
Fixpoint starts_with (p s : string) : bool :=
  match p, s with
  | EmptyString, _ => true
  | String _ _, EmptyString => false
  | String a p', String b s' => Ascii.eqb a b && starts_with p' s'
  end.

(** [needle in hay] on [str]: substring containment. *)
Fixpoint contains (needle hay : string) : bool :=
  starts_with needle hay
  || match hay with
     | EmptyString => false
     | String _ hay' => contains needle hay'
     end.

(** [any(x in text for x in xs)] *)
Definition any_in (xs : list string) (text : string) : bool :=
  existsb (fun x => contains x text) xs.

(** The mathematical reading of substring containment. *)
Definition substring_of (needle hay : string) : Prop :=
  exists pre post, hay = (pre ++ needle ++ post)%string.

End PyStr.

(** ** Values and tender dictionaries *)

(** The values a tender dictionary may hold: text, the numeric
    [difficulty_score] added by the ranker, and pandas' missing value. *)
Inductive value : Type :=
| VStr (s : string)
| VNum (z : Z)
| VNaN.

#[global] Instance value_eq_dec : EqDecision value.
Proof. solve_decision. Defined.

Abbreviation tender := (gmap string value).

(** [tender.get(key, '')] *)
Definition get_or_empty (t : tender) (key : string) : value :=
  default (VStr "") (t !! key).

(** ** Difficulty classifier *)

Definition easy_types : list string :=
  ["Request for quotation"; "Invitation to bid"].

Definition moderate_types : list string :=
  ["Request for proposal"].

Definition assess_difficulty (tender_type : string) : string :=
  if PyStr.any_in easy_types tender_type then "Easy"
  else if PyStr.any_in moderate_types tender_type then "Moderate"
  else "Complex".

(** The classifier's two lookup lists, read as substring containment. *)
Definition is_easy (text : string) : Prop :=
  PyStr.substring_of "Request for quotation" text
  \/ PyStr.substring_of "Invitation to bid" text.

Definition is_moderate (text : string) : Prop :=
  PyStr.substring_of "Request for proposal" text.

(** ** Record normaliser: the row loop of [search_tenders_selenium] *)

(** An [<a>] element: its text and its [href] attribute, if any. *)
Record anchor : Type := mkAnchor {
  a_text : string;
  a_href : option string
}.

(** A [<td>] cell: its text and the first [<a>] inside it, if any. *)
Record cell : Type := mkCell {
  cell_text : string;
  cell_link : option anchor
}.

(** A [<tr>] row is the list of its [<td>] cells. *)
Abbreviation row := (list cell).

Definition search_terms : list string :=
  ["office furniture"; "office supplies"; "office chairs"].

(** What one iteration of the row loop does. *)
Inductive row_outcome : Type :=
| RowEmitted (t : tender)   (* [tenders.append(tender_data)] *)
| RowSkipped                (* a guard was false: nothing happens *)
| RowError.                 (* the [except] branch: logged, [continue] *)

(** [cells[i].text.strip()]; [None] is Python's [IndexError]. *)
Definition cell_strip (cells : row) (i : nat) : option string :=
  c ← cells !! i; Some (PyStr.strip (cell_text c)).

(** [cells[i].text.strip() if len(cells) > i else 'N/A'] *)
Definition cell_strip_or_na (cells : row) (i : nat) : option string :=
  if decide (i < length cells)%nat then cell_strip cells i else Some "N/A".

(** [cells[4].text if len(cells) > 4 else ''] *)
Definition type_text (cells : row) : option string :=
  if decide (4 < length cells)%nat then c ← cells !! 4%nat; Some (cell_text c)
  else Some "".

(** The relevance test on the title, line 66. *)
Definition is_relevant (title : string) : bool :=
  PyStr.contains "office" (PyStr.lower title)
  || existsb (fun term => PyStr.contains term (PyStr.lower title)) search_terms.

(** The dictionary literal [tender_data]; [None] when an index is out
    of range. *)
Definition build_tender (cells : row) (title_link : anchor) : option tender :=
  deadline ← cell_strip cells 1;
  published ← cell_strip cells 2;
  organization ← cell_strip_or_na cells 3;
  type ← cell_strip_or_na cells 4;
  reference ← cell_strip_or_na cells 5;
  country ← cell_strip_or_na cells 6;
  difficulty_text ← type_text cells;
  Some (<["Title" := VStr (PyStr.strip (a_text title_link))]>
       (<["Deadline" := VStr deadline]>
       (<["Published" := VStr published]>
       (<["Organization" := VStr organization]>
       (<["Type" := VStr type]>
       (<["Reference" := VStr reference]>
       (<["Country" := VStr country]>
       (<["Status" := VStr "Active"]>
       (<["Difficulty" := VStr (assess_difficulty difficulty_text)]>
       (<["URL" := VStr (default "N/A" (a_href title_link))]>
        (∅ : tender))))))))))).

Definition title_of (title_link : anchor) : string :=
  PyStr.strip (a_text title_link).

(** The body of [for row in tender_rows]. *)
Definition normalize_row (cells : row) : row_outcome :=
  if decide (7 <= length cells)%nat then
    match cells !! 0%nat with
    | None => RowError
    | Some first =>
        match cell_link first with
        | None => RowSkipped
        | Some title_link =>
            match build_tender cells title_link with
            | None => RowError
            | Some tender_data =>
                if is_relevant (title_of title_link)
                then RowEmitted tender_data
                else RowSkipped
            end
        end
    end
  else RowSkipped.

Definition emitted (o : row_outcome) : option tender :=
  match o with RowEmitted t => Some t | _ => None end.

(** The list [tenders] after the loop. *)
Definition normalize_rows (tender_rows : list row) : list tender :=
  omap (fun cells => emitted (normalize_row cells)) tender_rows.

(** The specification's keyword interests: it folds the literal
    ['office'] of line 66 and [self.search_terms] into one list. *)
Definition keyword_interests : list string :=
  "office" :: search_terms.

(** [keyword] occurs in [text], letter case ignored. *)
Definition contains_ci (keyword text : string) : Prop :=
  PyStr.substring_of (PyStr.lower keyword) (PyStr.lower text).

(** The relevance gate as the single test for ['office']. *)
Definition office_only_gate (title : string) : bool :=
  PyStr.contains "office" (PyStr.lower title).

(** A row of the portal's table, for examples. *)
Definition sample_row (title type : string) (href : option string) : row :=
  [ mkCell title (Some (mkAnchor title href));
    mkCell "31-Jan-2026" None;
    mkCell "02-Jan-2026" None;
    mkCell "UNDP" None;
    mkCell type None;
    mkCell "REF-1" None;
    mkCell "Kenya" None ].

(** ** Shortlist ranker: the pandas pipeline of [filter_top_tenders] *)

(** [difficulty_order = {'Easy': 1, 'Moderate': 2, 'Complex': 3}] *)
Definition difficulty_order : gmap string Z :=
  <["Easy" := 1]> (<["Moderate" := 2]> (<["Complex" := 3]> ∅)).

Module Pandas.

(** [pd.DataFrame(records)]: the columns are the union of the keys;
    a record lacking a column holds the missing value there.  A column
    of texts is kept entry by entry, which is what the records of the
    normaliser give; a column of numbers is converted by pandas to one
    number type (an integer beside a missing value becomes a float),
    and this conversion is not part of the definition: what is stated
    of the values of the records is stated of records of texts. *)
Definition columns (records : list tender) : gset string :=
  ⋃ (dom <$> records).

Definition frame_row (cols : gset string) (t : tender) : tender :=
  t ∪ gset_to_gmap VNaN cols.

Definition DataFrame (records : list tender) : list tender :=
  frame_row (columns records) <$> records.

(** One entry of [df['Difficulty'].map(difficulty_order)]; [None] is
    the missing value of an unmapped entry. *)
Definition map_difficulty (r : tender) : option Z :=
  match r !! "Difficulty" with
  | Some (VStr d) => difficulty_order !! d
  | _ => None
  end.

Definition score_value (score : option Z) : value :=
  match score with
  | Some z => VNum z
  | None => VNaN
  end.

(** One row of [df] after [df['difficulty_score'] = ...]. *)
Definition assign_score (r : tender) : tender :=
  <["difficulty_score" := score_value (map_difficulty r)]> r.

(** Ascending order of a sort key column, missing values last. *)
Definition score_leb (a b : option Z) : bool :=
  match a, b with
  | Some x, Some y => x <=? y
  | _, None => true
  | None, Some _ => false
  end.

Definition score_le (a b : option Z) : Prop := score_leb a b = true.

(** [df.take(indexer)] *)
Definition take_rows {A : Type} (indexer : list nat) (rows : list A) : list A :=
  omap (fun i => rows !! i) indexer.

(** What [sort_values] promises of the indexer it computes from the
    key column, whatever the [kind]: it lists every row position once
    and the keys read in that order ascend, missing values last.  The
    default [kind='quicksort'] promises nothing about equal keys. *)
Definition sorting_indexer (indexer : list (option Z) -> list nat) : Prop :=
  forall keys,
    indexer keys ≡ₚ seq 0 (length keys)
    /\ Sorted score_le (take_rows (indexer keys) keys).

(** [df.head(n)], that is [df.iloc[:n]]. *)
Definition head {A : Type} (n : Z) (rows : list A) : list A :=
  if 0 <=? n then take (Z.to_nat n) rows
  else take (length rows - Z.to_nat (- n)) rows.

(** Insertion sort, used for the two concrete sort kinds below. *)
Fixpoint insert_by {A : Type} (leb : A -> A -> bool) (x : A) (l : list A)
  : list A :=
  match l with
  | [] => [x]
  | y :: l' => if leb x y then x :: l else y :: insert_by leb x l'
  end.

Definition sort_by {A : Type} (leb : A -> A -> bool) (l : list A) : list A :=
  foldr (insert_by leb) [] l.

(** The order a boolean comparison decides. *)
Definition le_of {A : Type} (leb : A -> A -> bool) : relation A :=
  fun x y => leb x y = true.

Definition enumerate {A : Type} (l : list A) : list (nat * A) :=
  zip (seq 0 (length l)) l.

Definition key_leb (p q : nat * option Z) : bool := score_leb p.2 q.2.

(** The enumerated key is the number [z]. *)
Definition has_key (z : Z) (p : nat * option Z) : Prop := p.2 = Some z.

#[global] Instance has_key_dec z p : Decision (has_key z p).
Proof. unfold has_key. apply _. Defined.

(** [kind='stable']: equal keys keep their input order. *)
Definition stable_indexer (keys : list (option Z)) : list nat :=
  fst <$> sort_by key_leb (enumerate keys).

(** The key column split as [nargsort] splits it: the numbers with
    their row positions, and the positions of the missing values. *)
Definition numbers (keys : list (option Z)) : list (nat * Z) :=
  omap (fun p => z ← p.2; Some (p.1, z)) (enumerate keys).

Definition missing (keys : list (option Z)) : list nat :=
  omap (fun p => match p.2 with
                 | None => Some p.1
                 | Some _ => None
                 end) (enumerate keys).

(** One compare-exchange step of a sorting network: the rows in the
    two lanes are exchanged when the key in the first lane is strictly
    greater.  A lane beyond the column holds the largest number, so a
    step that involves it exchanges nothing. *)
Definition compare_exchange (a : list (nat * Z)) (lanes : nat * nat)
  : list (nat * Z) :=
  match a !! lanes.1, a !! lanes.2 with
  | Some x, Some y =>
      if y.2 <? x.2 then <[lanes.1 := y]> (<[lanes.2 := x]> a) else a
  | _, _ => a
  end.

(** The network on four lanes. *)
Definition network : list (nat * nat) :=
  [(0, 1); (2, 3); (0, 3); (1, 2); (0, 1); (2, 3)]%nat.

Definition argsort_network (a : list (nat * Z)) : list (nat * Z) :=
  foldl compare_exchange a network.

(** The default [kind='quicksort'] on a key column of at most four
    numbers, as numpy's vectorised sort runs it: the rows go through
    the network, which leaves equal keys where the earlier steps put
    them, not in input order; the missing values follow.  A longer
    column the library sorts by lane vectors that it merges; here it is
    sorted by insertion, and nothing is stated of the default sort
    there. *)
Definition quicksort_indexer (keys : list (option Z)) : list nat :=
  let rows := numbers keys in
  (fst <$> (if decide (length rows <= 4)%nat then argsort_network rows
            else sort_by (fun p q => p.2 <=? q.2) rows))
  ++ missing keys.

End Pandas.

Section Ranker.

(** The indexer [df.sort_values('difficulty_score')] computes. *)
Variable sort_values_indexer : list (option Z) -> list nat.

(** [None] is the [KeyError] of [df['Difficulty']]. *)
Definition filter_top_tenders (tenders : list tender) (limit : Z)
  : option (list tender) :=
  match tenders with
  | [] => Some []
  | _ :: _ =>
      let df := Pandas.DataFrame tenders in
      if decide ("Difficulty" ∈ Pandas.columns tenders) then
        let df := Pandas.assign_score <$> df in
        let keys := Pandas.map_difficulty <$> df in
        let df := Pandas.take_rows (sort_values_indexer keys) df in
        Some (Pandas.head limit df)
      else None
  end.

End Ranker.

(** The ten fields of a tender record. *)
Definition tender_fields : list string :=
  ["Title"; "Deadline"; "Published"; "Organization"; "Type"; "Reference";
   "Country"; "Status"; "Difficulty"; "URL"].

(** The value is a text. *)
Definition is_text (v : value) : Prop :=
  match v with
  | VStr _ => True
  | _ => False
  end.

(** A classified tender, as the normaliser builds it: a record with
    exactly the ten fields, each holding a text, whose difficulty is
    one of the keys of [difficulty_order]. *)
Definition classified (t : tender) : Prop :=
  dom t = list_to_set tender_fields
  /\ (exists d, t !! "Difficulty" = Some (VStr d)
                /\ is_Some (difficulty_order !! d))
  /\ forall field v, t !! field = Some v -> is_text v.

(** [r] is the record [t] with the column [difficulty_score] added,
    holding the number of [t]'s difficulty. *)
Definition scored (t r : tender) : Prop :=
  exists z,
    Pandas.map_difficulty t = Some z
    /\ t !! "difficulty_score" = None
    /\ r = <["difficulty_score" := VNum z]> t.

(** The tenders of difficulty score [z], in input order. *)
Definition of_score (z : Z) (tenders : list tender) : list tender :=
  filter (fun t => Pandas.map_difficulty t = Some z) tenders.

(** Difficulty ascending, equal difficulties in input order: the
    order a stable sort yields. *)
Definition stable_order (tenders : list tender) : list tender :=
  of_score 1 tenders ++ of_score 2 tenders ++ of_score 3 tenders.

(** Ascending difficulty score. *)
Definition by_score : relation tender :=
  fun a b => Pandas.score_le (Pandas.map_difficulty a) (Pandas.map_difficulty b).

(** A ranked record without the column the ranker added. *)
Definition without_score (t : tender) : tender :=
  delete "difficulty_score" t.

(** The records of the ranking example: a tender with the given title
    and difficulty. *)
Definition sample_tender (title type difficulty : string) : tender :=
  <["Title" := VStr title]>
  (<["Deadline" := VStr "31-Jan-2026"]>
  (<["Published" := VStr "02-Jan-2026"]>
  (<["Organization" := VStr "UNDP"]>
  (<["Type" := VStr type]>
  (<["Reference" := VStr "REF"]>
  (<["Country" := VStr "Kenya"]>
  (<["Status" := VStr "Active"]>
  (<["Difficulty" := VStr difficulty]>
  (<["URL" := VStr "/Public/Notice/1"]>
   (∅ : tender)))))))))).

Definition tender_C1 : tender :=
  sample_tender "C1 office fit-out" "Framework Agreement" "Complex".
Definition tender_E1 : tender :=
  sample_tender "E1 office chairs" "Request for quotation" "Easy".
Definition tender_M1 : tender :=
  sample_tender "M1 office supplies" "Request for proposal" "Moderate".
Definition tender_E2 : tender :=
  sample_tender "E2 office furniture" "Invitation to bid" "Easy".

(** ** Effects: the worksheet, the calls issued on it, the lines printed *)

(** The gspread calls that change the worksheet. *)
Inductive store_call : Type :=
| DeleteRows (start_index end_index : Z)
| AppendRow (values : list value).

(** The lines the scraper prints (time stamps left out). *)
Inductive log_event : Type :=
| LogStarted
| LogSearching
| LogRowError
| LogSeleniumError
| LogFound (n : nat)
| LogNoTenders
| LogFiltering
| LogSelected (n : nat)
| LogUpdating
| LogUpdated (n : nat)
| LogStoreError
| LogCompleted.

(** A call on the remote sheet returns or raises; either way it leaves
    the sheet in some state. *)
Inductive outcome (W : Type) : Type :=
| Returned (w : W)
| Raised (w : W).
Arguments Returned {W} w.
Arguments Raised {W} w.

(** The remote spreadsheet as the reconciler uses it. *)
Record Store (W : Type) : Type := mkStore {
  (* credentials, [open_by_key], [get_worksheet(0)] all succeed *)
  open_worksheet : W -> bool;
  (* [ws.row_count] *)
  row_count : W -> Z;
  (* [ws.delete_rows(start, end)] *)
  delete_rows : Z -> Z -> W -> outcome W;
  (* [ws.append_row(values)] *)
  append_row : list value -> W -> outcome W
}.
Arguments open_worksheet {W} _ _.
Arguments row_count {W} _ _.
Arguments delete_rows {W} _ _ _ _.
Arguments append_row {W} _ _ _.

(** What the browser hands to the row loop. *)
Inductive browser : Type :=
| BrowserRaises                                   (* before the loop *)
| BrowserPage (tender_rows : list row) (quit_raises : bool).

Record world (W : Type) : Type := mkWorld {
  sheet : W;
  issued : list store_call;
  printed : list log_event
}.
Arguments mkWorld {W} _ _ _.
Arguments sheet {W} _.
Arguments issued {W} _.
Arguments printed {W} _.

Inductive result (A : Type) : Type :=
| Ok (a : A)
| Exn.
Arguments Ok {A} a.
Arguments Exn {A}.

(** Python computations: a value or a raised exception, and the world
    they leave. *)
Definition Py (W A : Type) : Type := world W -> result A * world W.

Module PyM.
Section Monad.
Context {W : Type}.

Definition ret {A : Type} (a : A) : Py W A := fun σ => (Ok a, σ).

Definition bind {A B : Type} (m : Py W A) (k : A -> Py W B) : Py W B :=
  fun σ =>
    match m σ with
    | (Ok a, σ') => k a σ'
    | (Exn, σ') => (Exn, σ')
    end.

Definition raise {A : Type} : Py W A := fun σ => (Exn, σ).

(** [try: body  except Exception: handler] *)
Definition try_except {A : Type} (body handler : Py W A) : Py W A :=
  fun σ =>
    match body σ with
    | (Ok a, σ') => (Ok a, σ')
    | (Exn, σ') => handler σ'
    end.

Definition print (e : log_event) : Py W unit :=
  fun σ => (Ok tt, mkWorld (sheet σ) (issued σ) (printed σ ++ [e])).

Definition from_option {A : Type} (o : option A) : Py W A :=
  match o with
  | Some a => ret a
  | None => raise
  end.

(** [for x in xs: body] *)
Fixpoint for_each {A : Type} (xs : list A) (body : A -> Py W unit)
  : Py W unit :=
  match xs with
  | [] => ret tt
  | x :: xs' => bind (body x) (fun _ => for_each xs' body)
  end.

(** Issue a call on the sheet. *)
Definition call (c : store_call) (op : W -> outcome W) : Py W unit :=
  fun σ =>
    match op (sheet σ) with
    | Returned w => (Ok tt, mkWorld w (issued σ ++ [c]) (printed σ))
    | Raised w => (Exn, mkWorld w (issued σ ++ [c]) (printed σ))
    end.

Definition read {A : Type} (f : W -> A) : Py W A :=
  fun σ => (Ok (f (sheet σ)), σ).

End Monad.
End PyM.

Declare Scope py_scope.
Delimit Scope py_scope with py.
Notation "x <- m ;; k" := (PyM.bind m (fun x => k))
  (at level 100, m at next level, right associativity) : py_scope.
Notation "m ;; k" := (PyM.bind m (fun _ => k))
  (at level 100, right associativity) : py_scope.

Section Scraper.

Context {W : Type}.
Variable store : Store W.
Variable sort_values_indexer : list (option Z) -> list nat.

Local Open Scope py_scope.

(** [search_tenders_selenium]: when the browser raises before the
    loop the outer [except] returns the still empty list; when
    [driver.quit()] raises the list is already complete. *)
Definition search_tenders_selenium (b : browser) : Py W (list tender) :=
  match b with
  | BrowserRaises =>
      PyM.print LogSeleniumError ;;
      PyM.ret []
  | BrowserPage tender_rows quit_raises =>
      PyM.for_each tender_rows (fun cells =>
        match normalize_row cells with
        | RowError => PyM.print LogRowError
        | _ => PyM.ret tt
        end) ;;
      (if quit_raises then PyM.print LogSeleniumError else PyM.ret tt) ;;
      PyM.ret (normalize_rows tender_rows)
  end.

(** The list literal passed to [ws.append_row]. *)
Definition sheet_row (t : tender) : list value :=
  [ get_or_empty t "Title";
    get_or_empty t "Deadline";
    get_or_empty t "Published";
    get_or_empty t "Organization";
    get_or_empty t "Type";
    get_or_empty t "Reference";
    get_or_empty t "Country";
    get_or_empty t "Status";
    get_or_empty t "Difficulty";
    get_or_empty t "URL" ].

Definition update_google_sheets (tenders : list tender) : Py W bool :=
  PyM.try_except
    (opened <- PyM.read (open_worksheet store) ;;
     (if opened : bool then PyM.ret tt else PyM.raise) ;;
     n <- PyM.read (row_count store) ;;
     (if 1 <? n
      then PyM.call (DeleteRows 2 n) (delete_rows store 2 n)
      else PyM.ret tt) ;;
     PyM.for_each tenders (fun t =>
       PyM.call (AppendRow (sheet_row t)) (append_row store (sheet_row t))) ;;
     PyM.print (LogUpdated (length tenders)) ;;
     PyM.ret true)
    (PyM.print LogStoreError ;;
     PyM.ret false).

Definition run (b : browser) : Py W unit :=
  PyM.print LogStarted ;;
  PyM.print LogSearching ;;
  tenders <- search_tenders_selenium b ;;
  PyM.print (LogFound (length tenders)) ;;
  match tenders with
  | [] =>
      PyM.print LogNoTenders ;;
      PyM.ret tt
  | _ :: _ =>
      PyM.print LogFiltering ;;
      top_tenders <- PyM.from_option
                       (filter_top_tenders sort_values_indexer tenders 10) ;;
      PyM.print (LogSelected (length top_tenders)) ;;
      PyM.print LogUpdating ;;
      _ <- update_google_sheets top_tenders ;;
      PyM.print LogCompleted
  end.

End Scraper.

(** The list [search_tenders_selenium] hands to [run]. *)
Definition found_tenders (b : browser) : list tender :=
  match b with
  | BrowserRaises => []
  | BrowserPage tender_rows _ => normalize_rows tender_rows
  end.

(** ** The reconciler's contract, in the words of the specification *)

Section StoreContract.

Context {W : Type}.
Variable store : Store W.

Definition perform (c : store_call) (w : W) : outcome W :=
  match c with
  | DeleteRows start_index end_index => delete_rows store start_index end_index w
  | AppendRow values => append_row store values w
  end.

(** The sheet a call leaves, whether it returned or raised. *)
Definition left_by (o : outcome W) : W :=
  match o with
  | Returned w => w
  | Raised w => w
  end.

Definition raises (o : outcome W) : Prop :=
  match o with
  | Returned _ => False
  | Raised _ => True
  end.

(** The sheet after the calls were issued in turn; nothing is undone. *)
Fixpoint sheet_after (calls : list store_call) (w : W) : W :=
  match calls with
  | [] => w
  | c :: calls' => sheet_after calls' (left_by (perform c w))
  end.

Fixpoint all_return (calls : list store_call) (w : W) : bool :=
  match calls with
  | [] => true
  | c :: calls' =>
      match perform c w with
      | Returned w' => all_return calls' w'
      | Raised _ => false
      end
  end.

(** Issue the calls in turn until one raises. *)
Definition issue_all (calls : list store_call) : Py W unit :=
  PyM.for_each calls (fun c => PyM.call c (perform c)).

(** One clear of rows 2 to the last if there are rows beyond the
    header, then one append per tender, in order. *)
Definition planned_calls (w : W) (tenders : list tender) : list store_call :=
  (if 1 <? row_count store w
   then [DeleteRows 2 (row_count store w)]
   else [])
  ++ ((fun t => AppendRow (sheet_row t)) <$> tenders).

End StoreContract.

(** ** A worksheet for examples

    Rows of at most [capacity] lines, header included; a call that
    would exceed it raises, as does clearing when the sheet is
    [locked]. *)
Module TestSheet.

Record t : Type := mk {
  lines : list (list value);
  capacity : nat;
  reachable : bool;
  locked : bool
}.

Definition store : Store t := {|
  open_worksheet w := reachable w;
  row_count w := Z.of_nat (length (lines w));
  delete_rows start_index end_index w :=
    if locked w then Raised w
    else Returned (mk (take (Z.to_nat (start_index - 1)) (lines w)
                       ++ drop (Z.to_nat end_index) (lines w))
                      (capacity w) (reachable w) (locked w));
  append_row values w :=
    if (length (lines w) <? capacity w)%nat
    then Returned (mk (lines w ++ [values]) (capacity w) (reachable w) (locked w))
    else Raised w
|}.

Definition header : list value :=
  VStr <$> tender_fields.

Definition fresh_world (w : t) : world t := mkWorld w [] [].

(** A reachable sheet holding the header and one row of an earlier
    run, with room for ten lines. *)
Definition used_sheet : t :=
  mk [header; sheet_row tender_C1] 10 true false.

(** The same sheet with room for three lines only: the second
    append of a run raises. *)
Definition small_sheet : t :=
  mk [header; sheet_row tender_C1] 2 true false.

(** A page of three rows: one without a title link, one invitation
    to bid, one request for proposal. *)
Definition sample_page : list row :=
  [ [ mkCell "Office desks" None; mkCell "31-Jan-2026" None;
      mkCell "02-Jan-2026" None; mkCell "UNDP" None;
      mkCell "Request for quotation" None; mkCell "REF-0" None;
      mkCell "Kenya" None ];
    sample_row "Office supplies for field staff"
               "Request for proposal" (Some "/Public/Notice/2");
    sample_row " Supply of OFFICE chairs "
               "Invitation to bid" (Some "/Public/Notice/3") ].

End TestSheet.

(** ** Notions used by the further properties *)

(** The first and the last character of [p] exist and are no white
    space. *)
Definition edges_not_space (p : string) : bool :=
  match p, PyStr.reverse p with
  | String a _, String b _ => negb (PyStr.is_space a) && negb (PyStr.is_space b)
  | _, _ => false
  end.

(** The rows the calls append, in order. *)
Definition appended_rows (calls : list store_call) : list (list value) :=
  omap (fun c => match c with
                 | AppendRow values => Some values
                 | DeleteRows _ _ => None
                 end) calls.

(** The Difficulty column (the ninth) of a sheet row. *)
Definition row_difficulty (values : list value) : string :=
  match values !! 8%nat with
  | Some (VStr d) => d
  | _ => ""
  end.

(** The rank of a difficulty label, for comparing labels. *)
Definition difficulty_rank (label : string) : Z :=
  default 0 (difficulty_order !! label).

(** The characters of a text, in order. *)
Definition chars : string -> list ascii := list_ascii_of_string.

(** The fields the normaliser fills with the stripped text of a cell
    or of the link. *)
Definition stripped_fields : list string :=
  ["Title"; "Deadline"; "Published"; "Organization"; "Type"; "Reference";
   "Country"].

(** Sheet rows in ascending difficulty. *)
Definition easier_or_equal (a b : list value) : Prop :=
  difficulty_rank (row_difficulty a) <= difficulty_rank (row_difficulty b).

(** * Properties *)

(** Closed equations between records are settled by running the
    equality test. *)
Ltac by_evaluation := apply (bool_decide_unpack _); vm_compute; exact I.

Module PyStrFacts.
Import PyStr.

Lemma starts_with_spec p s :
  starts_with p s = true <-> exists post, s = (p ++ post)%string.
Proof.
  revert s. induction p as [|a p IH]; intros s; simpl.
  - split; [intros _; by exists s | done].
  - destruct s as [|b s]; simpl.
    + split; [done | intros [post H]; discriminate].
    + rewrite andb_true_iff, Ascii.eqb_eq, IH. split.
      * intros [-> [post ->]]. by exists post.
      * intros [post H]. injection H as -> ->. eauto.
Qed.

Lemma contains_spec needle hay :
  contains needle hay = true <-> substring_of needle hay.
Proof.
  unfold substring_of. induction hay as [|c hay IH].
  - simpl. rewrite orb_false_r, starts_with_spec. split.
    + intros [post H]. by exists EmptyString, post.
    + intros [pre [post H]]. destruct pre; simpl in H; [by exists post | discriminate].
  - cbn [contains]. rewrite orb_true_iff, starts_with_spec, IH. split.
    + intros [[post H] | [pre [post H]]].
      * by exists EmptyString, post.
      * exists (String c pre), post. simpl. by rewrite H.
    + intros [pre [post H]]. destruct pre as [|c' pre]; simpl in H.
      * left. by exists post.
      * right. injection H as -> ->. eauto.
Qed.

Lemma string_app_assoc (a b c : string) :
  ((a ++ b) ++ c = a ++ (b ++ c))%string.
Proof.
  induction a as [|x a IH]; [done|].
  change (String x ((a ++ b) ++ c) = String x (a ++ (b ++ c)))%string.
  by rewrite IH.
Qed.

Lemma substring_of_trans a b c :
  substring_of a b -> substring_of b c -> substring_of a c.
Proof.
  intros (p1 & q1 & ->) (p2 & q2 & ->).
  exists (p2 ++ p1)%string, (q1 ++ q2)%string.
  by rewrite !string_app_assoc.
Qed.

Lemma contains_trans a b c :
  contains a b = true -> contains b c = true -> contains a c = true.
Proof. rewrite !contains_spec. apply substring_of_trans. Qed.

Lemma any_in_spec xs text :
  any_in xs text = true <-> exists x, In x xs /\ substring_of x text.
Proof.
  unfold any_in. rewrite existsb_exists.
  split; intros (x & Hx & H); exists x; split; try done; by apply contains_spec.
Qed.

End PyStrFacts.

Module ClassifierTheorems.
Import PyStr PyStrFacts.

Lemma easy_spec text : any_in easy_types text = true <-> is_easy text.
Proof.
  rewrite any_in_spec. unfold is_easy, easy_types. split.
  - intros (x & [<- | [<- | []]] & H); [by left | by right].
  - intros [H | H]; eexists; (split; [|exact H]); simpl; auto.
Qed.

Lemma moderate_spec text : any_in moderate_types text = true <-> is_moderate text.
Proof.
  rewrite any_in_spec. unfold is_moderate, moderate_types. split.
  - by intros (x & [<- | []] & H).
  - intros H. eexists. split; [|exact H]. simpl. auto.
Qed.

(** C2: [assess_difficulty] is a function from any text to Easy,
    Moderate or Complex.  It answers Easy exactly when the text contains
    "Request for quotation" or "Invitation to bid" (letter case
    respected), Moderate exactly when it contains neither but contains
    "Request for proposal", and Complex otherwise, the empty text
    included; the four examples of the specification evaluate as it
    says. *)
Theorem assess_difficulty_spec :
  (forall text,
      In (assess_difficulty text) ["Easy"; "Moderate"; "Complex"]
      /\ (assess_difficulty text = "Easy" <-> is_easy text)
      /\ (assess_difficulty text = "Moderate"
          <-> ~ is_easy text /\ is_moderate text)
      /\ (assess_difficulty text = "Complex"
          <-> ~ is_easy text /\ ~ is_moderate text))
  /\ assess_difficulty "Request for quotation" = "Easy"
  /\ assess_difficulty "Request for proposal" = "Moderate"
  /\ assess_difficulty "" = "Complex"
  /\ assess_difficulty "Framework Agreement" = "Complex"
  /\ assess_difficulty "request for quotation" = "Complex"
  /\ assess_difficulty "Request for quotation or Request for proposal" = "Easy".
Proof.
  split; [|by vm_compute].
  intros text. rewrite <- easy_spec, <- moderate_spec. unfold assess_difficulty.
  destruct (any_in easy_types text), (any_in moderate_types text);
    (split; [simpl; auto|]);
    intuition (try discriminate; try congruence).
Qed.
End ClassifierTheorems.

Module NormalizerFacts.
Import PyStr PyStrFacts.

Lemma strip_empty : strip "" = "".
Proof. reflexivity. Qed.

Lemma is_relevant_empty : is_relevant "" = false.
Proof. reflexivity. Qed.

Lemma search_terms_office :
  forall term, In term search_terms -> contains "office" term = true.
Proof. intros term [<- | [<- | [<- | []]]]; reflexivity. Qed.

Lemma is_relevant_office title :
  is_relevant title = contains "office" (lower title).
Proof.
  unfold is_relevant. destruct (contains "office" (lower title)) eqn:Ho; [done|].
  rewrite orb_false_l. apply not_true_is_false. intros H.
  apply existsb_exists in H as (term & Hin & Hterm).
  apply search_terms_office in Hin.
  rewrite (contains_trans _ _ _ Hin Hterm) in Ho. discriminate.
Qed.

Lemma lookup_cell (cells : row) (i : nat) :
  (i < length cells)%nat -> exists c, cells !! i = Some c.
Proof. intros H. by apply lookup_lt_is_Some_2. Qed.

(** On a row of seven cells or more every index of the dictionary
    literal is in range. *)
Lemma build_tender_full (cells : row) (title_link : anchor) :
  (7 <= length cells)%nat ->
  exists c1 c2 c3 c4 c5 c6,
    cells !! 1%nat = Some c1 /\ cells !! 2%nat = Some c2
    /\ cells !! 3%nat = Some c3 /\ cells !! 4%nat = Some c4
    /\ cells !! 5%nat = Some c5 /\ cells !! 6%nat = Some c6
    /\ build_tender cells title_link =
       Some (<["Title" := VStr (strip (a_text title_link))]>
            (<["Deadline" := VStr (strip (cell_text c1))]>
            (<["Published" := VStr (strip (cell_text c2))]>
            (<["Organization" := VStr (strip (cell_text c3))]>
            (<["Type" := VStr (strip (cell_text c4))]>
            (<["Reference" := VStr (strip (cell_text c5))]>
            (<["Country" := VStr (strip (cell_text c6))]>
            (<["Status" := VStr "Active"]>
            (<["Difficulty" := VStr (assess_difficulty (cell_text c4))]>
            (<["URL" := VStr (default "N/A" (a_href title_link))]>
             (∅ : tender))))))))))).
Proof.
  intros Hlen.
  destruct (lookup_cell cells 1 ltac:(lia)) as [c1 H1].
  destruct (lookup_cell cells 2 ltac:(lia)) as [c2 H2].
  destruct (lookup_cell cells 3 ltac:(lia)) as [c3 H3].
  destruct (lookup_cell cells 4 ltac:(lia)) as [c4 H4].
  destruct (lookup_cell cells 5 ltac:(lia)) as [c5 H5].
  destruct (lookup_cell cells 6 ltac:(lia)) as [c6 H6].
  exists c1, c2, c3, c4, c5, c6. repeat (split; [done|]).
  unfold build_tender, cell_strip_or_na, type_text, cell_strip.
  rewrite !decide_True by lia.
  rewrite H1, H2, H3, H4, H5, H6. reflexivity.
Qed.

Lemma normalize_row_emitted_iff (cells : row) (t : tender) :
  normalize_row cells = RowEmitted t
  <-> (7 <= length cells)%nat
      /\ exists first title_link,
          cells !! 0%nat = Some first
          /\ cell_link first = Some title_link
          /\ is_relevant (title_of title_link) = true
          /\ build_tender cells title_link = Some t.
Proof.
  unfold normalize_row. split.
  - destruct (decide (7 <= length cells)%nat) as [Hlen|]; [|done].
    destruct (cells !! 0%nat) as [first|] eqn:Hfirst; [|done].
    destruct (cell_link first) as [title_link|] eqn:Hlink; [|done].
    destruct (build_tender cells title_link) as [tender_data|] eqn:Hbuild; [|done].
    destruct (is_relevant (title_of title_link)) eqn:Hrel; [|done].
    intros [= <-]. split; [done|]. by exists first, title_link.
  - intros (Hlen & first & title_link & -> & -> & -> & ->).
    by rewrite decide_True.
Qed.

Lemma normalize_row_no_error (cells : row) : normalize_row cells <> RowError.
Proof.
  unfold normalize_row.
  destruct (decide (7 <= length cells)%nat) as [Hlen|]; [|done].
  destruct (lookup_cell cells 0 ltac:(lia)) as [first ->].
  destruct (cell_link first) as [title_link|]; [|done].
  destruct (build_tender_full cells title_link Hlen)
    as (? & ? & ? & ? & ? & ? & _ & _ & _ & _ & _ & _ & ->).
  by destruct (is_relevant (title_of title_link)).
Qed.

End NormalizerFacts.

Module NormalizerTheorems.
Import PyStr PyStrFacts NormalizerFacts.

Lemma keyword_lower keyword :
  In keyword keyword_interests -> lower keyword = keyword.
Proof. intros [<- | [<- | [<- | [<- | []]]]]; reflexivity. Qed.

Lemma is_relevant_keywords title :
  is_relevant title = true
  <-> exists keyword, In keyword keyword_interests /\ contains_ci keyword title.
Proof.
  unfold is_relevant, contains_ci, keyword_interests.
  rewrite orb_true_iff, existsb_exists. split.
  - intros [H | (term & Hin & H)].
    + exists "office". split; [by left|]. by apply contains_spec.
    + exists term. split; [by right|].
      rewrite keyword_lower by (by right). by apply contains_spec.
  - intros (keyword & Hin & H). rewrite keyword_lower in H by done.
    apply contains_spec in H. destruct Hin as [<- | Hin]; [by left|].
    right. by exists keyword.
Qed.

Lemma emitted_skipped (cells : row) :
  normalize_row cells = RowSkipped -> emitted (normalize_row cells) = None.
Proof. by intros ->. Qed.

(** C5: the normaliser emits a tender for a row only if the row has at
    least seven cells and its first cell holds a link whose text is not
    empty; a row with fewer than seven cells, a row whose first cell has
    no link, and a row whose link text is empty emit nothing.  (The
    guard [if title_link] tests the presence of the link only; an empty
    title never passes the relevance test of line 66.) *)
Theorem normalize_row_accepts_only (cells : row) :
  (forall t, normalize_row cells = RowEmitted t ->
     (7 <= length cells)%nat
     /\ exists first title_link,
         cells !! 0%nat = Some first
         /\ cell_link first = Some title_link
         /\ a_text title_link <> ""
         /\ title_of title_link <> "")
  /\ ((length cells < 7)%nat -> emitted (normalize_row cells) = None)
  /\ (forall first,
        cells !! 0%nat = Some first -> cell_link first = None ->
        emitted (normalize_row cells) = None)
  /\ (forall first title_link,
        cells !! 0%nat = Some first -> cell_link first = Some title_link ->
        a_text title_link = "" ->
        emitted (normalize_row cells) = None).
Proof.
  repeat split.
  - by apply normalize_row_emitted_iff in H as [? _].
  - apply normalize_row_emitted_iff in H
      as (_ & first & title_link & Hfirst & Hlink & Hrel & _).
    exists first, title_link. repeat (split; [done|]).
    assert (title_of title_link <> "") as Htitle.
    { intros Heq. rewrite Heq, is_relevant_empty in Hrel. discriminate. }
    split; [|done]. intros Heq. apply Htitle. unfold title_of. by rewrite Heq.
  - intros Hlen. unfold normalize_row. by rewrite decide_False by lia.
  - intros first Hfirst Hlink. unfold normalize_row.
    destruct (decide _); [|done]. by rewrite Hfirst, Hlink.
  - intros first title_link Hfirst Hlink Htext. unfold normalize_row.
    destruct (decide _); [|done]. rewrite Hfirst, Hlink.
    destruct (build_tender cells title_link); [|done].
    unfold title_of. by rewrite Htext, strip_empty, is_relevant_empty.
Qed.

(** C7: a row whose title contains none of the keyword interests,
    letter case ignored, is skipped without an error; a row of seven
    cells or more with a title link whose title contains one of them is
    emitted.  The keyword interests are the literal ['office'] together
    with [self.search_terms], as the specification folds them. *)
Theorem normalize_row_relevance (cells : row) :
  (forall first title_link,
      cells !! 0%nat = Some first -> cell_link first = Some title_link ->
      ~ (exists keyword,
            In keyword keyword_interests
            /\ contains_ci keyword (title_of title_link)) ->
      normalize_row cells = RowSkipped)
  /\ (forall first title_link,
        (7 <= length cells)%nat ->
        cells !! 0%nat = Some first -> cell_link first = Some title_link ->
        (exists keyword,
            In keyword keyword_interests
            /\ contains_ci keyword (title_of title_link)) ->
        exists t, normalize_row cells = RowEmitted t).
Proof.
  split.
  - intros first title_link Hfirst Hlink Hno. unfold normalize_row.
    destruct (decide _) as [Hlen|]; [|done]. rewrite Hfirst, Hlink.
    destruct (build_tender_full cells title_link Hlen)
      as (? & ? & ? & ? & ? & ? & _ & _ & _ & _ & _ & _ & ->).
    destruct (is_relevant (title_of title_link)) eqn:Hrel; [|done].
    exfalso. apply Hno. by apply is_relevant_keywords.
  - intros first title_link Hlen Hfirst Hlink Hkey.
    destruct (build_tender_full cells title_link Hlen)
      as (? & ? & ? & ? & ? & ? & _ & _ & _ & _ & _ & _ & Hbuild).
    eexists. apply normalize_row_emitted_iff. split; [done|].
    exists first, title_link. repeat (split; [done|]).
    split; [|exact Hbuild]. by apply is_relevant_keywords.
Qed.

(** C6, as the specification states it, fails: a link without [href]
    gives the URL field ['N/A'], not ["unknown"]. *)
Lemma missing_href_not_unknown :
  exists t,
    normalize_row (sample_row "Office chairs" "Invitation to bid" None)
    = RowEmitted t
    /\ t !! "URL" = Some (VStr "N/A")
    /\ t !! "URL" <> Some (VStr "unknown").
Proof.
  eexists. split; [by vm_compute|]. split; [by vm_compute|].
  vm_compute. discriminate.
Qed.

(** C6 (amended): for every accepted row, a link lacking an [href]
    gives the URL field the sentinel ['N/A'] rather than a failure.  The
    guarded expressions of Organization, Type, Reference and Country
    would give ['N/A'] for an index at or beyond the row length, on any
    row; an accepted row has seven cells or more, so these four fields
    always hold the stripped text of their cell. *)
Theorem normalize_row_sentinel (cells : row) (t : tender) :
  normalize_row cells = RowEmitted t ->
  exists first title_link,
    cells !! 0%nat = Some first
    /\ cell_link first = Some title_link
    /\ t !! "URL" = Some (VStr (default "N/A" (a_href title_link)))
    /\ (a_href title_link = None -> t !! "URL" = Some (VStr "N/A"))
    /\ (forall i field,
          In (i, field)
             [(3%nat, "Organization"); (4%nat, "Type");
              (5%nat, "Reference"); (6%nat, "Country")] ->
          exists c,
            cells !! i = Some c
            /\ cell_strip_or_na cells i = Some (strip (cell_text c))
            /\ t !! field = Some (VStr (strip (cell_text c))))
    /\ (forall (cells' : row) i,
          (length cells' <= i)%nat -> cell_strip_or_na cells' i = Some "N/A").
Proof.
  intros H. apply normalize_row_emitted_iff in H
    as (Hlen & first & title_link & Hfirst & Hlink & _ & Hbuild).
  exists first, title_link. repeat (split; [done|]).
  destruct (build_tender_full cells title_link Hlen)
    as (c1 & c2 & c3 & c4 & c5 & c6 & H1 & H2 & H3 & H4 & H5 & H6 & Hb).
  rewrite Hb in Hbuild. injection Hbuild as <-.
  assert (<["Title":=VStr (strip (a_text title_link))]>
            (<["Deadline":=VStr (strip (cell_text c1))]>
            (<["Published":=VStr (strip (cell_text c2))]>
            (<["Organization":=VStr (strip (cell_text c3))]>
            (<["Type":=VStr (strip (cell_text c4))]>
            (<["Reference":=VStr (strip (cell_text c5))]>
            (<["Country":=VStr (strip (cell_text c6))]>
            (<["Status":=VStr "Active"]>
            (<["Difficulty":=VStr (assess_difficulty (cell_text c4))]>
            (<["URL":=VStr (default "N/A" (a_href title_link))]>
             (∅ : tender)))))))))) !! "URL"
          = Some (VStr (default "N/A" (a_href title_link)))) as Hurl.
  { by repeat (rewrite lookup_insert_ne by done); rewrite lookup_insert_eq. }
  split; [done|]. split; [intros Hnone; by rewrite Hurl, Hnone|].
  split.
  - intros i field Hin. unfold cell_strip_or_na, cell_strip.
    destruct Hin as [[= <- <-] | [[= <- <-] | [[= <- <-] | [[= <- <-] | []]]]];
      eexists; (split; [eassumption|]); rewrite decide_True by lia;
      (split; [by rewrite ?H3, ?H4, ?H5, ?H6|]);
      by repeat (rewrite lookup_insert_ne by done); rewrite lookup_insert_eq.
  - intros cells' i Hi. unfold cell_strip_or_na. by rewrite decide_False by lia.
Qed.

(** The amended C6 on a row whose link has no [href]. *)
Lemma normalize_row_sentinel_witness :
  exists t,
    normalize_row (sample_row "Office chairs" "Invitation to bid" None)
    = RowEmitted t
    /\ exists first title_link,
        sample_row "Office chairs" "Invitation to bid" None !! 0%nat = Some first
        /\ cell_link first = Some title_link
        /\ t !! "URL" = Some (VStr (default "N/A" (a_href title_link)))
        /\ (a_href title_link = None -> t !! "URL" = Some (VStr "N/A"))
        /\ (forall i field,
              In (i, field)
                 [(3%nat, "Organization"); (4%nat, "Type");
                  (5%nat, "Reference"); (6%nat, "Country")] ->
              exists c,
                sample_row "Office chairs" "Invitation to bid" None !! i = Some c
                /\ cell_strip_or_na
                     (sample_row "Office chairs" "Invitation to bid" None) i
                   = Some (strip (cell_text c))
                /\ t !! field = Some (VStr (strip (cell_text c))))
        /\ (forall (cells' : row) i,
              (length cells' <= i)%nat -> cell_strip_or_na cells' i = Some "N/A").
Proof.
  eexists. split; [by vm_compute|].
  apply (normalize_row_sentinel
           (sample_row "Office chairs" "Invitation to bid" None)).
  by vm_compute.
Defined.

(** C10: every configured search term contains ["office"], so the
    relevance test of line 66 is the single test that the lowercased
    title contains ["office"]; a row that passes the structural checks
    is emitted exactly when it does.  The title ["office desk"] contains
    none of the configured terms and is accepted. *)
Theorem relevance_gate_is_office_test :
  (forall title, is_relevant title = office_only_gate title)
  /\ (forall (cells : row) first title_link,
        (7 <= length cells)%nat ->
        cells !! 0%nat = Some first -> cell_link first = Some title_link ->
        ((exists t, normalize_row cells = RowEmitted t)
         <-> contains "office" (lower (title_of title_link)) = true))
  /\ Forall (fun term => contains "office" term = true) search_terms
  /\ is_relevant "office desk" = true
  /\ existsb (fun term => contains term (lower "office desk")) search_terms = false
  /\ exists t, normalize_row (sample_row "office desk" "Invitation to bid" None)
               = RowEmitted t.
Proof.
  split; [apply is_relevant_office|]. split.
  - intros cells first title_link Hlen Hfirst Hlink.
    rewrite <- is_relevant_office. split.
    + intros [t H]. apply normalize_row_emitted_iff in H
        as (_ & first' & title_link' & Hfirst' & Hlink' & Hrel & _).
      rewrite Hfirst in Hfirst'. injection Hfirst' as <-.
      rewrite Hlink in Hlink'. by injection Hlink' as <-.
    + intros Hrel.
      destruct (build_tender_full cells title_link Hlen)
        as (? & ? & ? & ? & ? & ? & _ & _ & _ & _ & _ & _ & Hbuild).
      eexists. apply normalize_row_emitted_iff. split; [done|].
      exists first, title_link.
      split; [exact Hfirst|]. split; [exact Hlink|]. split; [exact Hrel|exact Hbuild].
  - split; [by repeat constructor|]. split; [done|]. split; [done|].
    eexists. by vm_compute.
Qed.
End NormalizerTheorems.

Module PandasFacts.
Import Pandas.

Section InsertionSort.
Context {A : Type} (leb : A -> A -> bool).
Hypothesis leb_total : forall x y, leb x y = false -> leb y x = true.

Lemma insert_by_perm x l : insert_by leb x l ≡ₚ x :: l.
Proof.
  induction l as [|y l IH]; simpl; [done|].
  destruct (leb x y); [done|]. rewrite IH. apply Permutation_swap.
Qed.

Lemma sort_by_perm l : sort_by leb l ≡ₚ l.
Proof.
  induction l as [|x l IH]; simpl; [done|].
  unfold sort_by in *. simpl. by rewrite insert_by_perm, IH.
Qed.

Lemma insert_by_hd x y l :
  (le_of leb) y x -> HdRel (le_of leb) y l -> HdRel (le_of leb) y (insert_by leb x l).
Proof.
  intros Hyx Hhd. destruct l as [|z l]; simpl; [by constructor|].
  destruct (leb x z); constructor; [done|]. by inversion Hhd.
Qed.

Lemma insert_by_sorted x l : Sorted (le_of leb) l -> Sorted (le_of leb) (insert_by leb x l).
Proof.
  induction 1 as [|y l Hs IH Hhd]; simpl.
  - by repeat constructor.
  - destruct (leb x y) eqn:Hxy.
    + constructor; [by constructor|]. by constructor.
    + constructor; [done|]. apply insert_by_hd; [|done]. by apply leb_total.
Qed.

Lemma sort_by_sorted l : Sorted (le_of leb) (sort_by leb l).
Proof.
  induction l as [|x l IH]; [constructor|]. by apply insert_by_sorted.
Qed.
End InsertionSort.

Lemma take_rows_seq {A} (rows : list A) n :
take_rows (seq 0 n) rows = take n rows.
Proof.
unfold take_rows. induction n as [|n IH]; [done|].
rewrite seq_S, omap_app, IH. simpl.
destruct (rows !! n) as [x|] eqn:Hx.
- by rewrite (take_S_r _ _ x).
- apply lookup_ge_None in Hx. rewrite app_nil_r.
  rewrite (take_ge rows n) by lia. rewrite (take_ge rows (S n)) by lia. done.
Qed.

Lemma take_rows_perm {A} (rows : list A) indexer :
indexer ≡ₚ seq 0 (length rows) -> take_rows indexer rows ≡ₚ rows.
Proof.
intros H. unfold take_rows. rewrite H.
change (take_rows (seq 0 (length rows)) rows ≡ₚ rows).
by rewrite take_rows_seq, firstn_all.
Qed.

Lemma take_rows_fmap {A B} (f : A -> B) indexer (rows : list A) :
f <$> take_rows indexer rows = take_rows indexer (f <$> rows).
Proof.
unfold take_rows. induction indexer as [|i indexer IH]; [done|].
csimpl. rewrite list_lookup_fmap. destruct (rows !! i); csimpl; by rewrite ?IH.
Qed.

Lemma take_rows_enumerated (keys : list (option Z)) (ps : list (nat * option Z)) :
Forall (fun p => keys !! p.1 = Some p.2) ps ->
take_rows (fst <$> ps) keys = snd <$> ps.
Proof.
unfold take_rows. induction 1 as [|p ps Hp _ IH]; [done|].
csimpl. by rewrite Hp, IH.
Qed.

Lemma enumerate_lookup (keys : list (option Z)) :
Forall (fun p => keys !! p.1 = Some p.2) (enumerate keys).
Proof.
apply Forall_forall. intros [i k] Hin. unfold enumerate in Hin.
apply list_elem_of_lookup in Hin as [j Hj].
apply lookup_zip_with_Some in Hj as (i' & k' & Heq & Hi & Hk).
injection Heq as -> ->. apply lookup_seq in Hi as [-> _]. done.
Qed.

Lemma score_leb_total a b : score_leb a b = false -> score_leb b a = true.
Proof. destruct a, b; simpl; try done. intros H. lia. Qed.

Lemma key_leb_total p q : key_leb p q = false -> key_leb q p = true.
Proof. apply score_leb_total. Qed.

(** Any total comparison that refines the key order gives an indexer
  that meets the promise of [sort_values]. *)
Lemma sort_by_sorting_indexer (leb : nat * option Z -> nat * option Z -> bool) :
(forall p q, leb p q = false -> leb q p = true) ->
(forall p q, leb p q = true -> key_leb p q = true) ->
sorting_indexer (fun keys => fst <$> sort_by leb (enumerate keys)).
Proof.
intros Htot Hkey keys. split.
- rewrite sort_by_perm. unfold enumerate. rewrite fst_zip; [done|].
  by rewrite length_seq.
- rewrite take_rows_enumerated.
  + eapply (Sorted_fmap _ (le_of leb)); [|by apply sort_by_sorted].
    intros p q Hpq. by apply Hkey.
  + rewrite sort_by_perm. apply enumerate_lookup.
Qed.

Lemma stable_indexer_sorting : sorting_indexer stable_indexer.
Proof. apply sort_by_sorting_indexer; [apply key_leb_total | done]. Qed.

Lemma numbers_missing_perm (keys : list (option Z)) :
(fst <$> numbers keys) ++ missing keys ≡ₚ seq 0 (length keys).
Proof.
unfold numbers, missing.
assert (forall l : list (nat * option Z),
          (fst <$> omap (fun p => z ← p.2; Some (p.1, z)) l)
          ++ omap (fun p => match p.2 with
                            | None => Some p.1
                            | Some _ => None
                            end) l
          ≡ₚ fst <$> l) as H.
{ induction l as [|[i [z|]] l IH]; csimpl; [done| |].
  - by rewrite IH.
  - by rewrite <- Permutation_middle, IH. }
rewrite H. unfold enumerate. rewrite fst_zip; [done|]. by rewrite length_seq.
Qed.

Lemma numbers_lookup (keys : list (option Z)) :
Forall (fun p => keys !! p.1 = Some (Some p.2)) (numbers keys).
Proof.
apply Forall_forall. intros [i z] Hin. unfold numbers in Hin.
apply list_elem_of_omap in Hin as ([j k] & Hj & Hk). simpl in Hk.
destruct k as [z'|]; [|done]. injection Hk as <- <-.
by apply (proj1 (Forall_forall _ _) (enumerate_lookup keys) (j, Some z')).
Qed.

Lemma missing_lookup (keys : list (option Z)) :
Forall (fun i => keys !! i = Some None) (missing keys).
Proof.
apply Forall_forall. intros i Hin. unfold missing in Hin.
apply list_elem_of_omap in Hin as ([j k] & Hj & Hk). simpl in Hk.
destruct k as [z'|]; [done|]. injection Hk as <-.
by apply (proj1 (Forall_forall _ _) (enumerate_lookup keys) (j, None)).
Qed.

Lemma take_rows_numbers (keys : list (option Z)) (ps : list (nat * Z)) :
Forall (fun p => keys !! p.1 = Some (Some p.2)) ps ->
take_rows (fst <$> ps) keys = (fun p => Some p.2) <$> ps.
Proof.
unfold take_rows. induction 1 as [|p ps Hp _ IH]; [done|].
csimpl. by rewrite Hp, IH.
Qed.

Lemma take_rows_missing (keys : list (option Z)) (l : list nat) :
Forall (fun i => keys !! i = Some None) l ->
take_rows l keys = (fun _ => None) <$> l.
Proof.
unfold take_rows. induction 1 as [|i l Hi _ IH]; [done|].
csimpl. by rewrite Hi, IH.
Qed.

Lemma sorted_then_missing (l : list (option Z)) (m : list nat) :
Sorted score_le l -> Sorted score_le (l ++ ((fun _ => None) <$> m)).
Proof.
induction 1 as [|x l Hs IH Hhd]; simpl.
- induction m as [|i m IHm]; [constructor|]. csimpl. constructor; [done|].
  destruct m; by constructor.
- constructor; [done|]. destruct Hhd as [|y l Hxy]; simpl.
  + destruct m; csimpl; constructor. unfold score_le. by destruct x.
  + by constructor.
Qed.

Lemma perm_second {A} (a b : A) l k : l ≡ₚ b :: k -> a :: l ≡ₚ b :: a :: k.
Proof. intros ->. apply Permutation_swap. Qed.

Lemma perm_third {A} (a b c : A) l k :
l ≡ₚ b :: c :: k -> a :: l ≡ₚ b :: c :: a :: k.
Proof.
intros ->. etransitivity; [apply Permutation_swap|].
apply perm_skip, Permutation_swap.
Qed.

Lemma perm_fourth {A} (a b c d : A) l k :
l ≡ₚ b :: c :: d :: k -> a :: l ≡ₚ b :: c :: d :: a :: k.
Proof.
intros ->. etransitivity; [apply Permutation_swap|].
apply perm_skip. etransitivity; [apply Permutation_swap|].
apply perm_skip, Permutation_swap.
Qed.

(** Permutations of a list written out. *)
Ltac solve_perm :=
repeat first
  [ reflexivity
  | apply perm_skip
  | apply perm_second
  | apply perm_third
  | apply perm_fourth ].

(** The network orders every column of at most four numbers. *)
Lemma argsort_network_sorts (a : list (nat * Z)) :
(length a <= 4)%nat ->
argsort_network a ≡ₚ a
/\ Sorted (fun p q => p.2 <= q.2) (argsort_network a).
Proof.
intros Hlen.
destruct a as [|p0 [|p1 [|p2 [|p3 [|p4 a]]]]]; [| | | | |simpl in Hlen; lia];
  unfold argsort_network, network, compare_exchange; simpl;
  repeat (match goal with
          | |- context [?y <? ?x] => destruct (Z.ltb_spec y x); simpl
          end);
  (split;
   [ solve_perm
   | repeat (constructor; simpl; try lia) ]).
Qed.

Lemma quicksort_indexer_sorting : sorting_indexer quicksort_indexer.
Proof.
intros keys. unfold quicksort_indexer.
set (rows := if decide (length (numbers keys) <= 4)%nat
             then argsort_network (numbers keys)
             else sort_by (fun p q => p.2 <=? q.2) (numbers keys)).
assert (rows ≡ₚ numbers keys
        /\ Sorted score_le ((fun p : nat * Z => Some p.2) <$> rows))
  as [Hperm Hsorted].
{ unfold rows. destruct (decide (length (numbers keys) <= 4)%nat) as [Hlen|_].
  - destruct (argsort_network_sorts _ Hlen) as [Hp Hs]. split; [done|].
    eapply (Sorted_fmap _ (fun p q : nat * Z => p.2 <= q.2)); [|done].
    intros p q Hpq. unfold score_le. simpl. lia.
  - split; [apply sort_by_perm|].
    eapply (Sorted_fmap _ (le_of (fun p q : nat * Z => p.2 <=? q.2)));
      [|apply sort_by_sorted].
    + intros p q Hpq. unfold le_of in Hpq. unfold score_le. simpl. lia.
    + intros p q Hpq. lia. }
split.
- rewrite Hperm. apply numbers_missing_perm.
- unfold take_rows. rewrite omap_app.
  change (Sorted score_le (take_rows (fst <$> rows) keys
                           ++ take_rows (missing keys) keys)).
  rewrite take_rows_numbers by (rewrite Hperm; apply numbers_lookup).
  rewrite take_rows_missing by apply missing_lookup.
  by apply sorted_then_missing.
Qed.

End PandasFacts.

Module RankerFacts.
Import Pandas PandasFacts.

Lemma head_nonneg {A} (n : Z) (rows : list A) :
  0 <= n -> Pandas.head n rows = take (Z.to_nat n) rows.
Proof. intros H. unfold Pandas.head. destruct (Z.leb_spec 0 n); [done | lia]. Qed.

Lemma head_nil {A} (n : Z) : Pandas.head n (@nil A) = [].
Proof. unfold Pandas.head. destruct (0 <=? n); by rewrite take_nil. Qed.

Lemma head_fmap {A B} (f : A -> B) n (rows : list A) :
  f <$> Pandas.head n rows = Pandas.head n (f <$> rows).
Proof. unfold Pandas.head. rewrite length_fmap. destruct (0 <=? n); apply fmap_take. Qed.

Lemma take_rows_nil {A} (indexer : list nat) : take_rows indexer (@nil A) = [].
Proof. unfold take_rows. induction indexer; [done|]. by csimpl. Qed.

Lemma frame_row_id (cols : gset string) (t : tender) :
  dom t = cols -> frame_row cols t = t.
Proof.
  intros <-. unfold frame_row. apply map_eq. intros k.
  rewrite lookup_union. destruct (t !! k) eqn:Hk.
  - by destruct (gset_to_gmap VNaN (dom t) !! k).
  - rewrite lookup_gset_to_gmap, option_guard_False; [done|].
    by apply not_elem_of_dom.
Qed.

Lemma columns_absorbed (tenders : list tender) :
  Forall classified tenders ->
  list_to_set tender_fields ∪ columns tenders = list_to_set tender_fields.
Proof.
  unfold columns. induction 1 as [|u us [Hu _] _ IH]; csimpl.
  - apply (right_id_L ∅ (∪)).
  - by rewrite Hu, (assoc_L (∪)), (idemp_L (∪)).
Qed.

Lemma columns_classified (t : tender) (tenders : list tender) :
  Forall classified (t :: tenders) ->
  columns (t :: tenders) = list_to_set tender_fields.
Proof.
  intros H. inversion H as [|? ? [Hd _] Hrest]; subst.
  unfold columns. csimpl. rewrite Hd. by apply columns_absorbed.
Qed.

Lemma frame_rows_classified (tenders : list tender) :
  Forall classified tenders ->
  frame_row (list_to_set tender_fields) <$> tenders = tenders.
Proof.
  induction 1 as [|u us [Hu _] _ IH]; [done|].
  by rewrite fmap_cons, IH, frame_row_id.
Qed.

Lemma DataFrame_classified (t : tender) (tenders : list tender) :
  Forall classified (t :: tenders) -> DataFrame (t :: tenders) = t :: tenders.
Proof.
  intros H. unfold DataFrame. rewrite (columns_classified _ _ H).
  by apply frame_rows_classified.
Qed.

Lemma map_difficulty_assign_score (t : tender) :
  map_difficulty (assign_score t) = map_difficulty t.
Proof. unfold map_difficulty, assign_score. by rewrite lookup_insert_ne. Qed.

Lemma score_not_field :
  "difficulty_score" ∉ (list_to_set tender_fields : gset string).
Proof. rewrite elem_of_list_to_set. apply (bool_decide_unpack _). by vm_compute. Qed.

Lemma difficulty_is_field :
  "Difficulty" ∈ (list_to_set tender_fields : gset string).
Proof. rewrite elem_of_list_to_set. apply (bool_decide_unpack _). by vm_compute. Qed.

Lemma classified_no_score (t : tender) :
  classified t -> t !! "difficulty_score" = None.
Proof.
  intros [Hd _]. apply not_elem_of_dom. rewrite Hd. apply score_not_field.
Qed.

Lemma without_assign_score (t : tender) :
  classified t -> without_score (assign_score t) = t.
Proof.
  intros H. unfold without_score, assign_score.
  rewrite delete_insert_eq. apply delete_id. by apply classified_no_score.
Qed.

Lemma without_score_rows (rows : list tender) :
  Forall classified rows -> without_score <$> (assign_score <$> rows) = rows.
Proof.
  induction 1 as [|t rows Ht _ IH]; [done|].
  by rewrite !fmap_cons, IH, without_assign_score.
Qed.

Lemma difficulty_order_range d z :
  difficulty_order !! d = Some z -> z = 1 \/ z = 2 \/ z = 3.
Proof.
  unfold difficulty_order. intros H.
  repeat (apply lookup_insert_Some in H as [[_ H] | [_ H]]; [naive_solver|]).
  by rewrite lookup_empty in H.
Qed.

Lemma classified_score (t : tender) :
  classified t ->
  exists z, map_difficulty t = Some z /\ (z = 1 \/ z = 2 \/ z = 3).
Proof.
  intros [_ [(d & Hd & [z Hz]) _]]. exists z. unfold map_difficulty. rewrite Hd.
  split; [done|]. by eapply difficulty_order_range.
Qed.

(** What the pipeline computes on classified tenders: the rows picked by
    the indexer, each with its score column, cut by [head]. *)
Lemma filter_top_tenders_classified indexer (tenders : list tender) limit :
  Forall classified tenders ->
  filter_top_tenders indexer tenders limit =
    Some (Pandas.head limit
            (assign_score <$>
               take_rows (indexer (map_difficulty <$> tenders)) tenders)).
Proof.
  intros H. destruct tenders as [|t tenders].
  - by rewrite take_rows_nil, fmap_nil, head_nil.
  - unfold filter_top_tenders. rewrite DataFrame_classified by done.
    rewrite decide_True.
    2:{ rewrite (columns_classified _ _ H). apply difficulty_is_field. }
    rewrite <- list_fmap_compose.
    rewrite (list_fmap_ext (map_difficulty ∘ assign_score) map_difficulty).
    2:{ intros ? ? ?. apply map_difficulty_assign_score. }
    by rewrite take_rows_fmap.
Qed.

Lemma sorted_rows indexer (tenders : list tender) :
  sorting_indexer indexer ->
  let full := take_rows (indexer (map_difficulty <$> tenders)) tenders in
  full ≡ₚ tenders /\ Sorted by_score full.
Proof.
  intros Hix full. destruct (Hix (map_difficulty <$> tenders)) as [Hperm Hsorted].
  rewrite length_fmap in Hperm. split.
  - by apply take_rows_perm.
  - rewrite <- take_rows_fmap in Hsorted. fold full in Hsorted.
    clear -Hsorted. induction full as [|x l IH]; [constructor|].
    csimpl in Hsorted. inversion Hsorted as [|? ? Hs Hh]; subst.
    constructor; [by apply IH|]. destruct l; [constructor|].
    csimpl in Hh. inversion Hh; subst. by constructor.
Qed.

Lemma of_score_above z x l :
  Forall (by_score x) l -> 
  (forall zx, map_difficulty x = Some zx -> z < zx) ->
  is_Some (map_difficulty x) ->
  of_score z l = [].
Proof.
  intros Hall Hz [zx Hx]. unfold of_score. 
  induction Hall as [|y l Hy _ IH]; [done|].
  rewrite filter_cons_False; [done|].
  intros Hyz. unfold by_score, score_le in Hy. rewrite Hx, Hyz in Hy. simpl in Hy.
  specialize (Hz _ Hx). lia.
Qed.

(** A list in ascending score order is its three score classes in turn. *)
Lemma sorted_by_classes (l : list tender) :
  Forall classified l -> Sorted by_score l -> l = stable_order l.
Proof.
  intros Hc Hs. 
  assert (Transitive by_score) as Htrans.
  { intros a b c. unfold by_score, score_le.
    destruct (map_difficulty a), (map_difficulty b), (map_difficulty c); simpl; try done; lia. }
  apply Sorted_StronglySorted in Hs; [|done].
  unfold stable_order. induction Hs as [|x l Hs IH Hall]; [done|].
  inversion Hc as [|? ? Hx Hl]; subst. specialize (IH Hl).
  destruct (classified_score x Hx) as (z & Hz & Hcase).
  unfold of_score in *.
  destruct Hcase as [-> | [-> | ->]].
  - rewrite (filter_cons_True _ x l) by done.
    rewrite (filter_cons_False (fun t => map_difficulty t = Some 2)) by (rewrite Hz; done).
    rewrite (filter_cons_False (fun t => map_difficulty t = Some 3)) by (rewrite Hz; done).
    simpl. by rewrite <- IH.
  - rewrite (filter_cons_False (fun t => map_difficulty t = Some 1)) by (rewrite Hz; done).
    rewrite (filter_cons_True (fun t => map_difficulty t = Some 2)) by done.
    rewrite (filter_cons_False (fun t => map_difficulty t = Some 3)) by (rewrite Hz; done).
    assert (of_score 1 l = []) as H1.
    { eapply of_score_above; [done| |by rewrite Hz]. intros zx. rewrite Hz. intros [= <-]. lia. }
    unfold of_score in H1. rewrite H1 in *. simpl in *. by rewrite <- IH.
  - rewrite (filter_cons_False (fun t => map_difficulty t = Some 1)) by (rewrite Hz; done).
    rewrite (filter_cons_False (fun t => map_difficulty t = Some 2)) by (rewrite Hz; done).
    rewrite (filter_cons_True (fun t => map_difficulty t = Some 3)) by done.
    assert (of_score 1 l = []) as H1.
    { eapply of_score_above; [done| |by rewrite Hz]. intros zx. rewrite Hz. intros [= <-]. lia. }
    assert (of_score 2 l = []) as H2.
    { eapply of_score_above; [done| |by rewrite Hz]. intros zx. rewrite Hz. intros [= <-]. lia. }
    unfold of_score in H1, H2. rewrite H1, H2 in *. simpl in *. by rewrite <- IH.
Qed.

End RankerFacts.

Module RankerTheorems.
Import Pandas PandasFacts RankerFacts.

Lemma sample_tender_classified title type difficulty :
  is_Some (difficulty_order !! difficulty) ->
  classified (sample_tender title type difficulty).
Proof.
  intros H. split; [|split].
  - unfold sample_tender. rewrite !dom_insert_L, dom_empty_L.
    unfold tender_fields. simpl. done.
  - exists difficulty. split; [|done]. unfold sample_tender.
    by repeat (rewrite lookup_insert_ne by done); rewrite lookup_insert_eq.
  - intros field v Hv. unfold sample_tender in Hv.
    repeat (apply lookup_insert_Some in Hv as [[_ <-] | [_ Hv]]; [done|]).
    by rewrite lookup_empty in Hv.
Qed.


Lemma classified_perm (l l' : list tender) :
  l ≡ₚ l' -> Forall classified l' -> Forall classified l.
Proof. intros H. by rewrite H. Qed.

(** On classified tenders the ranker returns a prefix of the three
    score classes in turn, each class in some order. *)
Lemma ranked_by_classes indexer (tenders : list tender) (limit : Z) :
  sorting_indexer indexer ->
  Forall classified tenders ->
  0 <= limit ->
  exists out easy moderate complex,
    filter_top_tenders indexer tenders limit = Some out
    /\ easy ≡ₚ of_score 1 tenders
    /\ moderate ≡ₚ of_score 2 tenders
    /\ complex ≡ₚ of_score 3 tenders
    /\ without_score <$> out = take (Z.to_nat limit) (easy ++ moderate ++ complex)
    /\ length out = Z.to_nat (Z.min limit (Z.of_nat (length tenders))).
Proof.
  intros Hix Hc Hlim.
  destruct (sorted_rows indexer tenders Hix) as [Hperm Hsorted].
  set (full := take_rows (indexer (map_difficulty <$> tenders)) tenders) in *.
  assert (Forall classified full) as Hfull by (by eapply classified_perm).
  exists (Pandas.head limit (assign_score <$> full)),
    (of_score 1 full), (of_score 2 full), (of_score 3 full).
  split; [by apply filter_top_tenders_classified|].
  unfold of_score. repeat split; try (by rewrite Hperm).
  - rewrite head_nonneg by done. rewrite <- fmap_take, <- list_fmap_compose.
    rewrite (list_fmap_ext _ id (take (Z.to_nat limit) full)).
    + rewrite list_fmap_id. f_equal. by apply sorted_by_classes.
    + intros i t Ht. simpl. apply without_assign_score.
      apply list_elem_of_lookup_2 in Ht. apply elem_of_take in Ht as (j & Hj & _).
      apply list_elem_of_lookup_2 in Hj.
      by eapply (proj1 (Forall_forall _ _) Hfull).
  - rewrite head_nonneg by done. rewrite length_take, length_fmap, Hperm. lia.
Qed.

Lemma scored_assign_score (t : tender) :
  classified t -> scored t (assign_score t).
Proof.
  intros H. destruct (classified_score t H) as (z & Hz & _). exists z.
  split; [done|]. split; [by apply classified_no_score|].
  unfold assign_score. by rewrite Hz.
Qed.

Lemma scored_rows (rows : list tender) :
  Forall classified rows -> Forall2 scored rows (assign_score <$> rows).
Proof.
  induction 1 as [|t rows Ht _ IH]; [constructor|].
  rewrite fmap_cons. constructor; [by apply scored_assign_score | done].
Qed.

(** The same, with the records as the ranker returns them: each is
    its input record with the score column added. *)
Lemma ranked_by_classes_scored indexer (tenders : list tender) (limit : Z) :
  sorting_indexer indexer ->
  Forall classified tenders ->
  0 <= limit ->
  exists out easy moderate complex,
    filter_top_tenders indexer tenders limit = Some out
    /\ easy ≡ₚ of_score 1 tenders
    /\ moderate ≡ₚ of_score 2 tenders
    /\ complex ≡ₚ of_score 3 tenders
    /\ Forall2 scored (take (Z.to_nat limit) (easy ++ moderate ++ complex)) out
    /\ length out = Z.to_nat (Z.min limit (Z.of_nat (length tenders))).
Proof.
  intros Hix Hc Hlim.
  destruct (sorted_rows indexer tenders Hix) as [Hperm Hsorted].
  set (full := take_rows (indexer (map_difficulty <$> tenders)) tenders) in *.
  assert (Forall classified full) as Hfull by (by eapply classified_perm).
  exists (Pandas.head limit (assign_score <$> full)),
    (of_score 1 full), (of_score 2 full), (of_score 3 full).
  split; [by apply filter_top_tenders_classified|].
  unfold of_score. repeat split; try (by rewrite Hperm).
  - rewrite head_nonneg by done. rewrite <- fmap_take.
    change (Forall2 scored (take (Z.to_nat limit) (stable_order full))
              (assign_score <$> take (Z.to_nat limit) full)).
    rewrite <- (sorted_by_classes full Hfull Hsorted).
    apply scored_rows. by apply Forall_take.
  - rewrite head_nonneg by done. rewrite length_take, length_fmap, Hperm. lia.
Qed.

(** The default sort on the ranking example of the specification. *)
Lemma quicksort_example :
  filter_top_tenders quicksort_indexer
    [tender_C1; tender_E1; tender_M1; tender_E2] 10
  = Some [ <["difficulty_score" := VNum 1]> tender_E1;
           <["difficulty_score" := VNum 1]> tender_E2;
           <["difficulty_score" := VNum 2]> tender_M1;
           <["difficulty_score" := VNum 3]> tender_C1 ].
Proof. by_evaluation. Qed.

(** The default sort on the same tenders in another input order. *)
Lemma quicksort_reorders_ties :
  filter_top_tenders quicksort_indexer
    [tender_C1; tender_M1; tender_E1; tender_E2] 10
  = Some [ <["difficulty_score" := VNum 1]> tender_E2;
           <["difficulty_score" := VNum 1]> tender_E1;
           <["difficulty_score" := VNum 2]> tender_M1;
           <["difficulty_score" := VNum 3]> tender_C1 ].
Proof. by_evaluation. Qed.

(** With [kind='stable'] the ranking example comes out as the
    specification writes it. *)
Lemma stable_example :
  fmap (M := list) without_score <$>
    filter_top_tenders stable_indexer
      [tender_C1; tender_E1; tender_M1; tender_E2] 10
  = Some [tender_E1; tender_E2; tender_M1; tender_C1].
Proof. by_evaluation. Qed.

Lemma stable_order_reordered :
  take (Z.to_nat 10) (stable_order [tender_C1; tender_M1; tender_E1; tender_E2])
  = [tender_E1; tender_E2; tender_M1; tender_C1].
Proof. by_evaluation. Qed.

Lemma reordered_classified :
  Forall classified [tender_C1; tender_M1; tender_E1; tender_E2].
Proof.
  repeat constructor; apply sample_tender_classified; by vm_compute; eexists.
Qed.

Lemma example_titles_differ : tender_E2 <> tender_E1.
Proof.
  intros H.
  assert (tender_E2 !! "Title" = tender_E1 !! "Title") as Ht by (by rewrite H).
  vm_compute in Ht. discriminate.
Qed.

(** C1, as the specification states it, fails: equal difficulties do
    not always keep their input order.  The code sorts with the default
    [kind='quicksort'], which on the four tenders [C1; M1; E1; E2]
    returns [E2] before [E1], where the stable order of the
    specification is [E1; E2; M1; C1]. *)
Lemma filter_top_tenders_not_stable :
  sorting_indexer quicksort_indexer
  /\ Forall classified [tender_C1; tender_M1; tender_E1; tender_E2]
  /\ filter_top_tenders quicksort_indexer
       [tender_C1; tender_M1; tender_E1; tender_E2] 10
     = Some [ <["difficulty_score" := VNum 1]> tender_E2;
              <["difficulty_score" := VNum 1]> tender_E1;
              <["difficulty_score" := VNum 2]> tender_M1;
              <["difficulty_score" := VNum 3]> tender_C1 ]
  /\ take (Z.to_nat 10)
       (stable_order [tender_C1; tender_M1; tender_E1; tender_E2])
     = [tender_E1; tender_E2; tender_M1; tender_C1]
  /\ [tender_E2; tender_E1; tender_M1; tender_C1]
     <> [tender_E1; tender_E2; tender_M1; tender_C1].
Proof.
  split; [apply quicksort_indexer_sorting|].
  split; [apply reordered_classified|].
  split; [apply quicksort_reorders_ties|].
  split; [apply stable_order_reordered|].
  intros H. apply example_titles_differ. congruence.
Qed.

(** C1 (amended): for every sort that meets the promise of
    [sort_values], every list of classified tenders and every limit
    [>= 0], [filter_top_tenders] returns the first [min limit length]
    records of the input in ascending difficulty (Easy=1, Moderate=2,
    Complex=3), each returned record being its input record with the
    column [difficulty_score] added; the order among tenders of equal
    difficulty is the sort's choice, not always the input order.  On the
    ranking example of the specification the default sort returns
    [E1; E2; M1; C1], and the empty input yields the empty output. *)
Theorem filter_top_tenders_sorted indexer (tenders : list tender) (limit : Z) :
  sorting_indexer indexer ->
  Forall classified tenders ->
  0 <= limit ->
  (exists out easy moderate complex,
      filter_top_tenders indexer tenders limit = Some out
      /\ easy ≡ₚ of_score 1 tenders
      /\ moderate ≡ₚ of_score 2 tenders
      /\ complex ≡ₚ of_score 3 tenders
      /\ Forall2 scored (take (Z.to_nat limit) (easy ++ moderate ++ complex))
                 out
      /\ length out = Z.to_nat (Z.min limit (Z.of_nat (length tenders))))
  /\ filter_top_tenders quicksort_indexer
       [tender_C1; tender_E1; tender_M1; tender_E2] 10
     = Some [ <["difficulty_score" := VNum 1]> tender_E1;
              <["difficulty_score" := VNum 1]> tender_E2;
              <["difficulty_score" := VNum 2]> tender_M1;
              <["difficulty_score" := VNum 3]> tender_C1 ]
  /\ filter_top_tenders indexer [] limit = Some [].
Proof.
  intros Hix Hc Hlim. split; [by apply ranked_by_classes_scored|].
  split; [apply quicksort_example | done].
Qed.

(** The amended C1 with the default sort, limit 2. *)
Lemma filter_top_tenders_sorted_witness :
  sorting_indexer quicksort_indexer
  /\ Forall classified [tender_C1; tender_M1; tender_E1; tender_E2]
  /\ 0 <= 2
  /\ (exists out easy moderate complex,
        filter_top_tenders quicksort_indexer
          [tender_C1; tender_M1; tender_E1; tender_E2] 2 = Some out
        /\ easy ≡ₚ of_score 1 [tender_C1; tender_M1; tender_E1; tender_E2]
        /\ moderate ≡ₚ of_score 2 [tender_C1; tender_M1; tender_E1; tender_E2]
        /\ complex ≡ₚ of_score 3 [tender_C1; tender_M1; tender_E1; tender_E2]
        /\ Forall2 scored
             (take (Z.to_nat 2) (easy ++ moderate ++ complex)) out
        /\ length out
           = Z.to_nat
               (Z.min 2
                  (Z.of_nat
                     (length [tender_C1; tender_M1; tender_E1; tender_E2]))))
     /\ filter_top_tenders quicksort_indexer
          [tender_C1; tender_E1; tender_M1; tender_E2] 10
        = Some [ <["difficulty_score" := VNum 1]> tender_E1;
                 <["difficulty_score" := VNum 1]> tender_E2;
                 <["difficulty_score" := VNum 2]> tender_M1;
                 <["difficulty_score" := VNum 3]> tender_C1 ]
     /\ filter_top_tenders quicksort_indexer [] 2 = Some [].
Proof.
  split; [apply quicksort_indexer_sorting|].
  split; [apply reordered_classified|].
  split; [lia|].
  apply (filter_top_tenders_sorted quicksort_indexer
           [tender_C1; tender_M1; tender_E1; tender_E2] 2).
  - apply quicksort_indexer_sorting.
  - apply reordered_classified.
  - lia.
Defined.

End RankerTheorems.

Module StableFacts.
Import Pandas PandasFacts RankerFacts RankerTheorems.

Section Stability.
Context {A : Type} (leb : A -> A -> bool) (P : A -> Prop) `{!forall x, Decision (P x)}.
Hypothesis ties : forall x y, P x -> P y -> leb x y = true.

Lemma filter_insert_by x l :
  filter P (insert_by leb x l) = filter P (x :: l).
Proof.
  induction l as [|y l IH]; [done|]. simpl.
  destruct (leb x y) eqn:Hxy; [done|].
  rewrite (filter_cons P y), IH, !(filter_cons P x), (filter_cons P y).
  destruct (decide (P x)) as [Hx|Hx]; [|done].
  destruct (decide (P y)) as [Hy|Hy]; [|done].
  rewrite (ties x y Hx Hy) in Hxy. discriminate.
Qed.

Lemma filter_sort_by l : filter P (sort_by leb l) = filter P l.
Proof.
  induction l as [|x l IH]; [done|].
  change (sort_by leb (x :: l)) with (insert_by leb x (sort_by leb l)).
  by rewrite filter_insert_by, !(filter_cons P x), IH.
Qed.
End Stability.

Lemma has_key_ties z p q : has_key z p -> has_key z q -> key_leb p q = true.
Proof.
  unfold has_key, key_leb. intros -> ->. simpl. lia.
Qed.

Lemma of_score_take_rows z (rows : list tender) (ps : list (nat * option Z)) :
  Forall (fun p => exists r, rows !! p.1 = Some r /\ map_difficulty r = p.2) ps ->
  of_score z (take_rows (fst <$> ps) rows)
  = take_rows (fst <$> filter (has_key z) ps) rows.
Proof.
  unfold of_score, take_rows. induction 1 as [|p ps (r & Hr & Hk) _ IH]; [done|].
  rewrite fmap_cons. csimpl. rewrite Hr.
  destruct (decide (has_key z p)) as [Hp|Hp].
  - rewrite (filter_cons_True (has_key z)) by done.
    rewrite filter_cons_True by (unfold has_key in Hp; congruence).
    rewrite fmap_cons. csimpl. by rewrite Hr, IH.
  - rewrite (filter_cons_False (has_key z)) by done.
    rewrite filter_cons_False by (unfold has_key in Hp; congruence).
    exact IH.
Qed.

Lemma enumerate_rows (rows : list tender) :
  Forall (fun p => exists r, rows !! p.1 = Some r /\ map_difficulty r = p.2)
         (enumerate (map_difficulty <$> rows)).
Proof.
  eapply Forall_impl; [apply enumerate_lookup|].
  intros [i k] H. simpl in *. rewrite list_lookup_fmap in H.
  destruct (rows !! i) as [r|]; [|done]. injection H as <-. by exists r.
Qed.

Lemma stable_indexer_keeps_classes z (rows : list tender) :
  of_score z (take_rows (stable_indexer (map_difficulty <$> rows)) rows)
  = of_score z rows.
Proof.
  unfold stable_indexer.
  rewrite of_score_take_rows.
  2:{ rewrite sort_by_perm. apply enumerate_rows. }
  rewrite (filter_sort_by key_leb (has_key z) (has_key_ties z)).
  rewrite <- of_score_take_rows by apply enumerate_rows.
  unfold enumerate. rewrite fst_zip by (by rewrite length_seq).
  by rewrite length_fmap, take_rows_seq, firstn_all.
Qed.

(** With [kind='stable'] the ranker returns the stable order, as the
    specification describes it. *)
Lemma stable_sort_gives_stable_order (tenders : list tender) (limit : Z) :
  Forall classified tenders ->
  0 <= limit ->
  fmap (M := list) without_score <$>
    filter_top_tenders stable_indexer tenders limit
  = Some (take (Z.to_nat limit) (stable_order tenders)).
Proof.
  intros Hc Hlim. rewrite filter_top_tenders_classified by done. simpl.
  destruct (sorted_rows stable_indexer tenders stable_indexer_sorting)
    as [Hperm Hsorted].
  set (full := take_rows (stable_indexer (map_difficulty <$> tenders)) tenders) in *.
  assert (Forall classified full) as Hfull by (by eapply classified_perm).
  f_equal. rewrite head_nonneg by done.
  rewrite <- fmap_take, <- list_fmap_compose.
  rewrite (list_fmap_ext _ id (take (Z.to_nat limit) full)).
  - rewrite list_fmap_id. f_equal.
    rewrite (sorted_by_classes full Hfull Hsorted). unfold stable_order, full.
    by rewrite !stable_indexer_keeps_classes.
  - intros i t Ht. simpl. apply without_assign_score.
    apply list_elem_of_lookup_2 in Ht. apply elem_of_take in Ht as (j & Hj & _).
    apply list_elem_of_lookup_2 in Hj.
    by eapply (proj1 (Forall_forall _ _) Hfull).
Qed.
End StableFacts.

Section ReconcilerFacts.
Context {W : Type}.
Variable store : Store W.

Lemma issue_all_returns calls σ :
  all_return store calls (sheet σ) = true ->
  issue_all store calls σ
  = (Ok tt, mkWorld (sheet_after store calls (sheet σ))
                    (issued σ ++ calls) (printed σ)).
Proof.
  revert σ. induction calls as [|c calls IH]; intros [w i p]; simpl.
  - intros _. unfold issue_all, PyM.ret. simpl. by rewrite app_nil_r.
  - unfold issue_all in *. simpl. unfold PyM.bind, PyM.call at 1. simpl.
    destruct (perform store c w) as [w'|w']; [|done].
    intros H. rewrite IH by done. simpl. by rewrite <- app_assoc.
Qed.

Lemma issue_all_raises pre c post σ :
  all_return store pre (sheet σ) = true ->
  raises (perform store c (sheet_after store pre (sheet σ))) ->
  issue_all store (pre ++ c :: post) σ
  = (Exn, mkWorld (sheet_after store (pre ++ [c]) (sheet σ))
                  (issued σ ++ pre ++ [c]) (printed σ)).
Proof.
  revert σ. induction pre as [|d pre IH]; intros [w i p]; simpl.
  - intros _ Hr. unfold issue_all. simpl. unfold PyM.bind, PyM.call at 1. simpl.
    by destruct (perform store c w).
  - unfold issue_all in *. simpl. unfold PyM.bind, PyM.call at 1. simpl.
    destruct (perform store d w) as [w'|w']; [|done].
    intros H Hr. simpl. rewrite IH by done. simpl. by rewrite <- app_assoc.
Qed.

(** Either every call returns, or there is a first one that raises. *)
Lemma all_return_or_first_raise calls w :
  all_return store calls w = true
  \/ exists pre c post,
      calls = pre ++ c :: post
      /\ all_return store pre w = true
      /\ raises (perform store c (sheet_after store pre w)).
Proof.
  revert w. induction calls as [|c calls IH]; intros w; simpl; [by left|].
  destruct (perform store c w) as [w'|w'] eqn:Hc.
  - destruct (IH w') as [H | (pre & d & post & -> & Hpre & Hd)]; [by left|].
    right. exists (c :: pre), d, post. simpl. by rewrite Hc.
  - right. exists [], c, calls. simpl. by rewrite Hc.
Qed.

Lemma append_loop tenders σ :
  PyM.for_each tenders (fun t =>
    PyM.call (AppendRow (sheet_row t)) (append_row store (sheet_row t))) σ
  = issue_all store ((fun t => AppendRow (sheet_row t)) <$> tenders) σ.
Proof.
  revert σ. unfold issue_all. induction tenders as [|t tenders IH]; intros σ; [done|].
  simpl. unfold PyM.bind. simpl.
  destruct (PyM.call _ _ σ) as [[[]|] σ']; [apply IH | done].
Qed.

Lemma sheet_row_agree (a b : tender) :
  (forall field, In field tender_fields -> a !! field = b !! field) ->
  sheet_row a = sheet_row b.
Proof.
  intros H. unfold sheet_row, get_or_empty.
  rewrite !(H _) by (simpl; tauto). done.
Qed.

Lemma planned_calls_agree (w : W) (tenders tenders' : list tender) :
  Forall2 (fun a b => forall field, In field tender_fields -> a !! field = b !! field)
          tenders tenders' ->
  planned_calls store w tenders = planned_calls store w tenders'.
Proof.
  intros H. unfold planned_calls. f_equal.
  induction H as [|a b l l' Hab _ IH]; [done|].
  by rewrite !fmap_cons, IH, (sheet_row_agree a b Hab).
Qed.

(** The [try] block of [update_google_sheets] issues the planned calls. *)
Lemma update_google_sheets_unfold tenders σ :
  update_google_sheets store tenders σ
  = if open_worksheet store (sheet σ) then
      match issue_all store (planned_calls store (sheet σ) tenders) σ with
      | (Ok _, σ') =>
          (Ok true, mkWorld (sheet σ') (issued σ')
                            (printed σ' ++ [LogUpdated (length tenders)]))
      | (Exn, σ') =>
          (Ok false, mkWorld (sheet σ') (issued σ')
                             (printed σ' ++ [LogStoreError]))
      end
    else (Ok false, mkWorld (sheet σ) (issued σ) (printed σ ++ [LogStoreError])).
Proof.
  unfold update_google_sheets, PyM.try_except, PyM.bind, PyM.read. simpl.
  destruct (open_worksheet store (sheet σ)); [|done]. simpl.
  unfold planned_calls.
  destruct (1 <? row_count store (sheet σ)); simpl.
  - unfold issue_all. simpl. unfold PyM.bind at 1.
    destruct (PyM.call _ _ σ) as [[[]|] σ'] eqn:Hcall; [|done].
    rewrite append_loop. unfold issue_all.
    by destruct (PyM.for_each _ _ σ') as [[[]|] σ''].
  - rewrite append_loop. unfold issue_all.
    by destruct (PyM.for_each _ _ σ) as [[[]|] σ''].
Qed.
End ReconcilerFacts.

Section ReconcilerTheorems.
Context {W : Type}.
Variable store : Store W.

Lemma all_return_split pre c post w :
  all_return store (pre ++ c :: post) w = true ->
  all_return store pre w = true
  /\ ~ raises (perform store c (sheet_after store pre w)).
Proof.
  revert w. induction pre as [|d pre IH]; intros w; simpl.
  - destruct (perform store c w); [by auto | done].
  - destruct (perform store d w) as [w'|w']; [apply IH | done].
Qed.

Lemma sheet_row_fields (t : tender) :
  sheet_row t = (fun field => default (VStr "") (t !! field)) <$> tender_fields
  /\ length (sheet_row t) = 10%nat.
Proof. split; reflexivity. Qed.

(** C8: [update_google_sheets] never raises.  It returns [True] exactly
    when the worksheet opens and every planned call returns.  When
    opening fails it issues no call; when a call raises (the clear or an
    append) that call is the last one issued, so no further append is
    made, and the result is [False].  In every case the sheet is left as
    the issued calls left it: nothing is undone. *)
Theorem update_google_sheets_failure (tenders : list tender) (σ : world W) :
  let plan := planned_calls store (sheet σ) tenders in
  exists ok σ' issued_now,
    update_google_sheets store tenders σ = (Ok ok, σ')
    /\ issued σ' = issued σ ++ issued_now
    /\ sheet σ' = sheet_after store issued_now (sheet σ)
    /\ (ok = true
        <-> open_worksheet store (sheet σ) = true
            /\ all_return store plan (sheet σ) = true)
    /\ ((open_worksheet store (sheet σ) = false /\ issued_now = [])
        \/ (open_worksheet store (sheet σ) = true
            /\ all_return store plan (sheet σ) = true
            /\ issued_now = plan)
        \/ (open_worksheet store (sheet σ) = true
            /\ exists pre c post,
                plan = pre ++ c :: post
                /\ issued_now = pre ++ [c]
                /\ all_return store pre (sheet σ) = true
                /\ raises (perform store c (sheet_after store pre (sheet σ))))).
Proof.
  intros plan. rewrite update_google_sheets_unfold. fold plan.
  destruct (open_worksheet store (sheet σ)) eqn:Hopen.
  - destruct (all_return_or_first_raise store plan (sheet σ))
      as [Hall | (pre & c & post & Hplan & Hpre & Hc)].
    + rewrite issue_all_returns by done. simpl.
      exists true, (mkWorld (sheet_after store plan (sheet σ)) (issued σ ++ plan)
                            (printed σ ++ [LogUpdated (length tenders)])), plan.
      repeat split; try done. right; left. done.
    + rewrite Hplan. rewrite issue_all_raises by done. simpl.
      exists false, (mkWorld (sheet_after store (pre ++ [c]) (sheet σ))
                             (issued σ ++ pre ++ [c])
                             (printed σ ++ [LogStoreError])), (pre ++ [c]).
      repeat split; try done.
      * intros [_ Hall]. apply all_return_split in Hall as [_ Hno]. by destruct Hno.
      * right; right. split; [done|]. by exists pre, c, post.
  - exists false, (mkWorld (sheet σ) (issued σ) (printed σ ++ [LogStoreError])), [].
    simpl. rewrite app_nil_r. repeat split; try done.
    + by intros [? _].
    + by left.
Qed.

(** C3: when the worksheet opens and no call raises, reconciling [N]
    tenders issues one [delete_rows(2, row_count)] if the sheet has rows
    beyond the header, then exactly [N] appends, one per tender in
    shortlist order; each appended row holds the ten fields Title,
    Deadline, Published, Organization, Type, Reference, Country, Status,
    Difficulty, URL in this order, an absent field as the empty text. *)
Theorem update_google_sheets_calls (tenders : list tender) (σ : world W) :
  open_worksheet store (sheet σ) = true ->
  all_return store (planned_calls store (sheet σ) tenders) (sheet σ) = true ->
  exists σ',
    update_google_sheets store tenders σ = (Ok true, σ')
    /\ issued σ'
       = issued σ
         ++ (if 1 <? row_count store (sheet σ)
             then [DeleteRows 2 (row_count store (sheet σ))]
             else [])
         ++ ((fun t => AppendRow (sheet_row t)) <$> tenders)
    /\ length ((fun t => AppendRow (sheet_row t)) <$> tenders) = length tenders
    /\ forall t,
        sheet_row t
        = (fun field => default (VStr "") (t !! field)) <$> tender_fields
        /\ length (sheet_row t) = 10%nat.
Proof.
  intros Hopen Hall. rewrite update_google_sheets_unfold, Hopen.
  rewrite issue_all_returns by done. simpl. eexists. split; [done|]. simpl.
  split; [done|]. split; [apply length_fmap | apply sheet_row_fields].
Qed.

Variable sort_values_indexer : list (option Z) -> list nat.

Lemma row_loop_prints_nothing (tender_rows : list row) (σ : world W) :
  PyM.for_each tender_rows (fun cells =>
    match normalize_row cells with
    | RowError => PyM.print LogRowError
    | _ => PyM.ret tt
    end) σ = (Ok tt, σ).
Proof.
  induction tender_rows as [|cells rows IH]; [done|].
  simpl. unfold PyM.bind.
  pose proof (NormalizerFacts.normalize_row_no_error cells) as Hne.
  destruct (normalize_row cells); [| |done]; simpl; apply IH.
Qed.

Lemma search_tenders_selenium_returns (b : browser) (σ : world W) :
  exists search_log,
    search_tenders_selenium b σ
    = (Ok (found_tenders b),
       mkWorld (sheet σ) (issued σ) (printed σ ++ search_log)).
Proof.
  destruct b as [|tender_rows quit_raises]; simpl.
  - by exists [LogSeleniumError].
  - unfold PyM.bind. rewrite row_loop_prints_nothing.
    destruct quit_raises; simpl.
    + by exists [LogSeleniumError].
    + exists []. destruct σ. simpl. by rewrite app_nil_r.
Qed.

(** C4: when the search yields no tender, [run] issues no call on the
    sheet, leaves it as it was, prints that nothing was found and
    returns normally. *)
Theorem run_without_tenders (b : browser) (σ : world W) :
  found_tenders b = [] ->
  exists σ' search_log,
    run store sort_values_indexer b σ = (Ok tt, σ')
    /\ sheet σ' = sheet σ
    /\ issued σ' = issued σ
    /\ printed σ'
       = printed σ ++ [LogStarted; LogSearching] ++ search_log
         ++ [LogFound 0; LogNoTenders].
Proof.
  intros Hfound. unfold run, PyM.bind at 1 2 3. simpl.
  destruct (search_tenders_selenium_returns b
              (mkWorld (sheet σ) (issued σ)
                 ((printed σ ++ [LogStarted]) ++ [LogSearching])))
    as [search_log Hsearch].
  rewrite Hsearch, Hfound. simpl. eexists _, search_log. split; [done|]. simpl.
  split; [done|]. split; [done|]. by rewrite <- !app_assoc.
Qed.
End ReconcilerTheorems.

Module FrameFacts.
Import Pandas PandasFacts RankerFacts.

Lemma elem_of_take_rows {A} (indexer : list nat) (rows : list A) x :
  x ∈ take_rows indexer rows -> x ∈ rows.
Proof.
  unfold take_rows. intros H. apply list_elem_of_omap in H as (i & _ & Hi).
  by eapply list_elem_of_lookup_2.
Qed.

Lemma elem_of_head {A} (n : Z) (rows : list A) x :
  x ∈ Pandas.head n rows -> x ∈ rows.
Proof.
  unfold Pandas.head. destruct (0 <=? n); intros H;
    by apply elem_of_take in H as (i & Hi%list_elem_of_lookup_2 & _).
Qed.

End FrameFacts.

Module FrameTheorems.
Import Pandas PandasFacts RankerFacts RankerTheorems FrameFacts.

(** C9, as the specification states it, fails: a record the ranker
    returns carries the column [difficulty_score], which no input record
    has, so it is not one of the input records. *)
Lemma ranker_output_has_extra_field :
  sorting_indexer stable_indexer
  /\ Forall classified [tender_E1]
  /\ filter_top_tenders stable_indexer [tender_E1] 10
     = Some [<["difficulty_score" := VNum 1]> tender_E1]
  /\ <["difficulty_score" := VNum 1]> tender_E1 ∉ [tender_E1].
Proof.
  split; [apply stable_indexer_sorting|].
  split; [repeat constructor; apply sample_tender_classified; by vm_compute; eexists|].
  split; [by_evaluation|].
  intros H. apply list_elem_of_singleton in H.
  assert (<["difficulty_score" := VNum 1]> tender_E1 !! "difficulty_score"
          = tender_E1 !! "difficulty_score") as Heq by (by rewrite H).
  rewrite lookup_insert_eq in Heq. vm_compute in Heq. discriminate.
Qed.

Lemma ranked_record (indexer : list (option Z) -> list nat)
    (tenders : list tender) (limit : Z) (out : list tender) (r : tender) :
  Forall classified tenders ->
  filter_top_tenders indexer tenders limit = Some out ->
  r ∈ out ->
  exists t z,
    t ∈ tenders
    /\ map_difficulty t = Some z
    /\ r = <["difficulty_score" := VNum z]> t
    /\ t !! "difficulty_score" = None.
Proof.
  intros Hc Hout Hr. rewrite filter_top_tenders_classified in Hout by done.
  injection Hout as <-. apply elem_of_head in Hr.
  apply list_elem_of_fmap in Hr as (t & -> & Ht). apply elem_of_take_rows in Ht.
  assert (classified t) as Hct by (by eapply (proj1 (Forall_forall _ _) Hc)).
  destruct (classified_score t Hct) as (z & Hz & _).
  exists t, z. split; [done|]. split; [done|].
  split; [|by apply classified_no_score].
  unfold assign_score. by rewrite Hz.
Qed.

(** C9 (amended): every record the ranker returns is one of its input
    records with the one field [difficulty_score] added, every other
    field unchanged; without that field the returned records are a
    selection of the input records, each taken at most once, so that
    only order and membership change.  The reconciler reads the ten
    fields only: the added field does not change what it does. *)
Theorem ranking_and_reconciling_preserve_tenders :
  (forall indexer (tenders : list tender) limit out,
      Forall classified tenders ->
      filter_top_tenders indexer tenders limit = Some out ->
      (forall r, r ∈ out ->
         exists t z,
           t ∈ tenders
           /\ map_difficulty t = Some z
           /\ r = <["difficulty_score" := VNum z]> t
           /\ t !! "difficulty_score" = None
           /\ without_score r = t
           /\ forall field, field <> "difficulty_score" -> r !! field = t !! field)
      /\ (sorting_indexer indexer -> without_score <$> out ⊆+ tenders))
  /\ (forall W (store : Store W) (out : list tender) (σ : world W),
        update_google_sheets store out σ
        = update_google_sheets store (without_score <$> out) σ).
Proof.
  split.
  - intros indexer tenders limit out Hc Hout. split.
    + intros r Hr.
      destruct (ranked_record _ _ _ _ _ Hc Hout Hr)
        as (t & z & Ht & Hz & -> & Hnone).
      exists t, z. repeat (split; [done|]). split.
      * unfold without_score. rewrite delete_insert_eq. by apply delete_id.
      * intros field Hne. by rewrite lookup_insert_ne.
    + intros Hix. rewrite filter_top_tenders_classified in Hout by done.
      injection Hout as <-.
      destruct (sorted_rows indexer tenders Hix) as [Hperm _].
      set (full := take_rows _ _) in *.
      assert (Forall classified full) as Hfull by (by eapply classified_perm).
      rewrite head_fmap, without_score_rows by done.
      rewrite <- Hperm. apply sublist_submseteq.
      unfold Pandas.head. destruct (0 <=? limit); apply sublist_take.
  - intros W store out σ. rewrite !update_google_sheets_unfold.
    rewrite length_fmap.
    rewrite (planned_calls_agree store (sheet σ) out (without_score <$> out));
      [done|].
    induction out as [|t out IH]; [constructor|].
    rewrite fmap_cons. constructor; [|done].
    intros field Hin. unfold without_score. symmetry. apply lookup_delete_ne.
    intros <-. simpl in Hin. intuition discriminate.
Qed.
End FrameTheorems.

Module PipelineFacts.
Import PyStr PyStrFacts NormalizerFacts Pandas RankerFacts.

Lemma assess_difficulty_ordered text :
  is_Some (difficulty_order !! assess_difficulty text).
Proof.
  unfold assess_difficulty.
  destruct (any_in easy_types text); [by vm_compute; eexists|].
  destruct (any_in moderate_types text); by vm_compute; eexists.
Qed.

Lemma normalize_row_classified (cells : row) (t : tender) :
  normalize_row cells = RowEmitted t -> classified t.
Proof.
  intros H. apply normalize_row_emitted_iff in H
    as (Hlen & first & title_link & _ & _ & _ & Hbuild).
  destruct (build_tender_full cells title_link Hlen)
    as (c1 & c2 & c3 & c4 & c5 & c6 & _ & _ & _ & _ & _ & _ & Hb).
  rewrite Hb in Hbuild. injection Hbuild as <-. split; [|split].
  - rewrite !dom_insert_L, dom_empty_L. unfold tender_fields. simpl. done.
  - exists (assess_difficulty (cell_text c4)). split.
    + by repeat (rewrite lookup_insert_ne by done); rewrite lookup_insert_eq.
    + apply assess_difficulty_ordered.
  - intros field v Hv.
    repeat (apply lookup_insert_Some in Hv as [[_ <-] | [_ Hv]]; [done|]).
    by rewrite lookup_empty in Hv.
Qed.

Lemma normalize_rows_classified (tender_rows : list row) :
  Forall classified (normalize_rows tender_rows).
Proof.
  unfold normalize_rows. induction tender_rows as [|cells rows IH]; [constructor|].
  csimpl. destruct (normalize_row cells) eqn:Hrow; simpl; try done.
  constructor; [by eapply normalize_row_classified | done].
Qed.

Lemma found_tenders_classified (b : browser) : Forall classified (found_tenders b).
Proof. destruct b; [constructor | apply normalize_rows_classified]. Qed.

Lemma update_google_sheets_returns {W} (store : Store W) tenders (σ : world W) :
  exists ok σ', update_google_sheets store tenders σ = (Ok ok, σ').
Proof.
  rewrite update_google_sheets_unfold.
  destruct (open_worksheet store (sheet σ)); [|by eexists _, _].
  destruct (issue_all store _ σ) as [[[]|] σ']; by eexists _, _.
Qed.

(** The run never ends in an exception: the tenders the normaliser emits
    are classified, so the ranker finds its column, and the reconciler
    catches what the sheet raises. *)
Lemma run_returns {W} (store : Store W) indexer (b : browser) (σ : world W) :
  exists σ', run store indexer b σ = (Ok tt, σ').
Proof.
  unfold run, PyM.bind at 1 2 3. simpl.
  destruct (search_tenders_selenium_returns b
              (mkWorld (sheet σ) (issued σ)
                 ((printed σ ++ [LogStarted]) ++ [LogSearching])))
    as [search_log ->].
  pose proof (found_tenders_classified b) as Hc.
  destruct (found_tenders b) as [|t tenders] eqn:Hfound; [by eexists|].
  unfold PyM.bind, PyM.print, PyM.from_option.
  cbn -[filter_top_tenders update_google_sheets].
  rewrite (filter_top_tenders_classified indexer (t :: tenders) 10 Hc).
  cbn -[filter_top_tenders update_google_sheets Pandas.head].
  match goal with
  | |- context [update_google_sheets store ?ts ?w] =>
      destruct (update_google_sheets_returns store ts w) as (ok & σ1 & ->)
  end.
  by eexists.
Qed.
End PipelineFacts.

Module Witnesses.
Import Pandas.

(** C3 on a sheet that holds one earlier row. *)
Lemma update_google_sheets_calls_witness :
  open_worksheet TestSheet.store (sheet (TestSheet.fresh_world TestSheet.used_sheet)) = true
  /\ all_return TestSheet.store
       (planned_calls TestSheet.store
          (sheet (TestSheet.fresh_world TestSheet.used_sheet))
          [tender_E1; tender_M1])
       (sheet (TestSheet.fresh_world TestSheet.used_sheet)) = true
  /\ exists σ',
      update_google_sheets TestSheet.store [tender_E1; tender_M1]
        (TestSheet.fresh_world TestSheet.used_sheet) = (Ok true, σ')
      /\ issued σ'
         = issued (TestSheet.fresh_world TestSheet.used_sheet)
           ++ (if 1 <? row_count TestSheet.store
                         (sheet (TestSheet.fresh_world TestSheet.used_sheet))
               then [DeleteRows 2
                       (row_count TestSheet.store
                          (sheet (TestSheet.fresh_world TestSheet.used_sheet)))]
               else [])
           ++ ((fun t => AppendRow (sheet_row t)) <$> [tender_E1; tender_M1])
      /\ length ((fun t => AppendRow (sheet_row t)) <$> [tender_E1; tender_M1])
         = length [tender_E1; tender_M1]
      /\ forall t,
          sheet_row t
          = (fun field => default (VStr "") (t !! field)) <$> tender_fields
          /\ length (sheet_row t) = 10%nat.
Proof.
  split; [reflexivity|]. split; [reflexivity|].
  apply (update_google_sheets_calls TestSheet.store [tender_E1; tender_M1]
           (TestSheet.fresh_world TestSheet.used_sheet)); reflexivity.
Defined.

(** C4 on a page whose rows are all dropped. *)
Lemma run_without_tenders_witness :
  found_tenders (BrowserPage [sample_row "Laptops" "Invitation to bid" None; []] false) = []
  /\ exists σ' search_log,
      run TestSheet.store stable_indexer
        (BrowserPage [sample_row "Laptops" "Invitation to bid" None; []] false)
        (TestSheet.fresh_world TestSheet.used_sheet) = (Ok tt, σ')
      /\ sheet σ' = sheet (TestSheet.fresh_world TestSheet.used_sheet)
      /\ issued σ' = issued (TestSheet.fresh_world TestSheet.used_sheet)
      /\ printed σ'
         = printed (TestSheet.fresh_world TestSheet.used_sheet)
           ++ [LogStarted; LogSearching] ++ search_log
           ++ [LogFound 0; LogNoTenders].
Proof.
  split; [reflexivity|].
  apply (run_without_tenders TestSheet.store stable_indexer
           (BrowserPage [sample_row "Laptops" "Invitation to bid" None; []] false)
           (TestSheet.fresh_world TestSheet.used_sheet)).
  reflexivity.
Defined.

(** The run on the sample page: the row without a link is dropped, the
    invitation to bid is ranked before the request for proposal, the old
    row is cleared and two rows are appended. *)
Example run_sample_page :
  issued (snd (run TestSheet.store stable_indexer
                   (BrowserPage TestSheet.sample_page false)
                   (TestSheet.fresh_world TestSheet.used_sheet)))
  = [ DeleteRows 2 2;
      AppendRow (VStr <$> ["Supply of OFFICE chairs"; "31-Jan-2026"; "02-Jan-2026";
                           "UNDP"; "Invitation to bid"; "REF-1"; "Kenya";
                           "Active"; "Easy"; "/Public/Notice/3"]);
      AppendRow (VStr <$> ["Office supplies for field staff"; "31-Jan-2026";
                           "02-Jan-2026"; "UNDP"; "Request for proposal";
                           "REF-1"; "Kenya"; "Active"; "Moderate";
                           "/Public/Notice/2"]) ].
Proof. by vm_compute. Qed.

(** On the small sheet the second append raises: the run stops there,
    the first row stays, and the failure is printed. *)
Example run_sample_page_small_sheet :
  let σ' := snd (run TestSheet.store stable_indexer
                     (BrowserPage TestSheet.sample_page false)
                     (TestSheet.fresh_world TestSheet.small_sheet)) in
  length (issued σ') = 3%nat
  /\ length (TestSheet.lines (sheet σ')) = 2%nat
  /\ LogStoreError ∈ printed σ'.
Proof. vm_compute. repeat split. repeat constructor. Qed.
End Witnesses.

(** * Further properties of the code *)

Module TextFacts.
Import PyStr PyStrFacts.

Lemma lstrip_contains p s :
  (exists c p', p = String c p' /\ is_space c = false) ->
  contains p (lstrip s) = contains p s.
Proof.
  intros (c & p' & -> & Hc). induction s as [|d s IH]; [done|].
  cbn [lstrip]. destruct (is_space d) eqn:Hd; [|done].
  rewrite IH. cbn [contains starts_with].
  destruct (Ascii.eqb_spec c d) as [->|]; [congruence|done].
Qed.

Lemma chars_app a b : chars (a ++ b)%string = chars a ++ chars b.
Proof.
  induction a as [|x a IH]; [done|].
  change (x :: chars (a ++ b)%string = x :: chars a ++ chars b). by rewrite IH.
Qed.

Lemma chars_inj a b : chars a = chars b -> a = b.
Proof.
  intros H. rewrite <- (string_of_list_ascii_of_string a),
    <- (string_of_list_ascii_of_string b). unfold chars in H. by rewrite H.
Qed.

Lemma chars_reverse_onto s acc :
  chars (reverse_onto s acc) = rev (chars s) ++ chars acc.
Proof.
  revert acc. induction s as [|x s IH]; intros acc; [done|].
  cbn [reverse_onto]. rewrite IH. simpl. by rewrite <- app_assoc.
Qed.

Lemma chars_reverse s : chars (reverse s) = rev (chars s).
Proof. unfold reverse. rewrite chars_reverse_onto. simpl. by rewrite app_nil_r. Qed.

Lemma reverse_involutive s : reverse (reverse s) = s.
Proof. apply chars_inj. by rewrite !chars_reverse, rev_involutive. Qed.

Lemma substring_of_chars p s :
  substring_of p s <-> exists pre post, chars s = pre ++ chars p ++ post.
Proof.
  split.
  - intros (pre & post & ->). exists (chars pre), (chars post).
    by rewrite !chars_app.
  - intros (pre & post & H).
    exists (string_of_list_ascii pre), (string_of_list_ascii post).
    apply chars_inj. rewrite !chars_app. unfold chars at 2 4.
    by rewrite !list_ascii_of_string_of_list_ascii.
Qed.

Lemma substring_of_reverse p s :
  substring_of p s -> substring_of (reverse p) (reverse s).
Proof.
  rewrite !substring_of_chars. intros (pre & post & H).
  exists (rev post), (rev pre).
  by rewrite !chars_reverse, H, !rev_app_distr, <- app_assoc.
Qed.

Lemma contains_reverse p s :
  contains (reverse p) (reverse s) = contains p s.
Proof.
  apply eq_true_iff_eq. rewrite !contains_spec. split.
  - intros H. apply substring_of_reverse in H. by rewrite !reverse_involutive in H.
  - apply substring_of_reverse.
Qed.

Lemma rstrip_contains p s :
  (exists c p', reverse p = String c p' /\ is_space c = false) ->
  contains p (rstrip s) = contains p s.
Proof.
  intros Hp. unfold rstrip.
  rewrite <- (contains_reverse p), reverse_involutive.
  by rewrite lstrip_contains, contains_reverse.
Qed.

(** Stripping a text does not change whether it contains a phrase that
    begins and ends with a character other than white space. *)
Lemma strip_contains p s :
  edges_not_space p = true -> contains p (strip s) = contains p s.
Proof.
  unfold edges_not_space. intros H.
  destruct p as [|a p']; [done|].
  destruct (reverse (String a p')) as [|b q] eqn:Hrev; [done|].
  apply andb_true_iff in H as [Ha Hb].
  apply negb_true_iff in Ha. apply negb_true_iff in Hb.
  unfold strip. rewrite rstrip_contains by (rewrite Hrev; eauto).
  apply lstrip_contains. eauto.
Qed.

Lemma assess_difficulty_strip text :
  assess_difficulty (strip text) = assess_difficulty text.
Proof.
  unfold assess_difficulty, any_in, easy_types, moderate_types.
  cbn [existsb]. by rewrite !strip_contains by reflexivity.
Qed.
Lemma lstrip_idempotent s : lstrip (lstrip s) = lstrip s.
Proof.
  induction s as [|c s IH]; [done|]. cbn [lstrip].
  destruct (is_space c) eqn:Hc; [done|]. cbn [lstrip]. by rewrite Hc.
Qed.

Lemma lstrip_chars s :
  exists w, chars s = w ++ chars (lstrip s) /\ Forall (fun c => is_space c = true) w.
Proof.
  induction s as [|c s (w & Hw & Hsp)]; [by exists []|]. cbn [lstrip].
  destruct (is_space c) eqn:Hc.
  - exists (c :: w). split; [|by constructor].
    change (c :: chars s = c :: w ++ chars (lstrip s)). by rewrite Hw.
  - by exists [].
Qed.

Lemma lstrip_fixed s :
  (s = EmptyString \/ exists c r, s = String c r /\ is_space c = false) ->
  lstrip s = s.
Proof. intros [-> | (c & r & -> & Hc)]; [done|]. cbn [lstrip]. by rewrite Hc. Qed.

Lemma lstrip_head s :
  lstrip s = EmptyString
  \/ exists c r, lstrip s = String c r /\ is_space c = false.
Proof.
  induction s as [|c s IH]; [by left|]. cbn [lstrip].
  destruct (is_space c) eqn:Hc; [done|]. right. by exists c, s.
Qed.

Lemma rstrip_chars s :
  exists w, chars s = chars (rstrip s) ++ w.
Proof.
  destruct (lstrip_chars (reverse s)) as (w & Hw & _). exists (rev w).
  unfold rstrip. rewrite chars_reverse, <- rev_app_distr, <- Hw.
  by rewrite chars_reverse, rev_involutive.
Qed.

Lemma rstrip_idempotent s : rstrip (rstrip s) = rstrip s.
Proof. unfold rstrip. by rewrite reverse_involutive, lstrip_idempotent. Qed.

(** A stripped text is left as it is by [strip]: it neither begins nor
    ends with white space. *)
Lemma strip_idempotent s : strip (strip s) = strip s.
Proof.
  unfold strip at 1. rewrite (lstrip_fixed (strip s)).
  - unfold strip. apply rstrip_idempotent.
  - unfold strip. destruct (rstrip (lstrip s)) as [|c r] eqn:Hr; [by left|].
    right. exists c, r. split; [done|].
    destruct (rstrip_chars (lstrip s)) as [w Hw]. rewrite Hr in Hw.
    destruct (lstrip_head s) as [He | (d & q & Hd & Hsp)].
    + rewrite He in Hw. discriminate.
    + rewrite Hd in Hw. injection Hw as -> _. done.
Qed.
End TextFacts.

Module NormalizerRecords.
Import PyStr PyStrFacts NormalizerFacts TextFacts.

(** The record an accepted row yields, field by field. *)
Lemma emitted_record (cells : row) (t : tender) :
  normalize_row cells = RowEmitted t ->
  exists first title_link c1 c2 c3 c4 c5 c6,
    cells !! 0%nat = Some first /\ cell_link first = Some title_link
    /\ cells !! 1%nat = Some c1 /\ cells !! 2%nat = Some c2
    /\ cells !! 3%nat = Some c3 /\ cells !! 4%nat = Some c4
    /\ cells !! 5%nat = Some c5 /\ cells !! 6%nat = Some c6
    /\ t = <["Title" := VStr (strip (a_text title_link))]>
           (<["Deadline" := VStr (strip (cell_text c1))]>
           (<["Published" := VStr (strip (cell_text c2))]>
           (<["Organization" := VStr (strip (cell_text c3))]>
           (<["Type" := VStr (strip (cell_text c4))]>
           (<["Reference" := VStr (strip (cell_text c5))]>
           (<["Country" := VStr (strip (cell_text c6))]>
           (<["Status" := VStr "Active"]>
           (<["Difficulty" := VStr (assess_difficulty (cell_text c4))]>
           (<["URL" := VStr (default "N/A" (a_href title_link))]>
            (∅ : tender)))))))))).
Proof.
  intros H. apply normalize_row_emitted_iff in H
    as (Hlen & first & title_link & Hfirst & Hlink & _ & Hbuild).
  destruct (build_tender_full cells title_link Hlen)
    as (c1 & c2 & c3 & c4 & c5 & c6 & H1 & H2 & H3 & H4 & H5 & H6 & Hb).
  rewrite Hb in Hbuild. injection Hbuild as <-.
  by exists first, title_link, c1, c2, c3, c4, c5, c6.
Qed.

Ltac lookup_field :=
  repeat (rewrite lookup_insert_ne by done); rewrite ?lookup_insert_eq, ?lookup_empty.

(** X1: every tender the normaliser emits has exactly the ten fields,
    each holding a text; Status is ['Active']; and the seven fields taken
    from the page hold stripped text, so stripping them again changes
    nothing. *)
Theorem emitted_tender_is_well_formed (cells : row) (t : tender) :
  normalize_row cells = RowEmitted t ->
  dom t = list_to_set tender_fields
  /\ (forall field v, t !! field = Some v -> is_text v)
  /\ t !! "Status" = Some (VStr "Active")
  /\ (forall field, In field stripped_fields ->
        exists text, t !! field = Some (VStr text) /\ strip text = text).
Proof.
  intros H. destruct (emitted_record cells t H)
    as (first & title_link & c1 & c2 & c3 & c4 & c5 & c6 & _ & _ & _ & _ & _ & _ & _ & _ & ->).
  split; [|split; [|split]].
  - rewrite !dom_insert_L, dom_empty_L. unfold tender_fields. simpl. done.
  - intros field v Hv.
    repeat (apply lookup_insert_Some in Hv as [[_ <-] | [_ Hv]]; [done|]).
    by rewrite lookup_empty in Hv.
  - by lookup_field.
  - intros field Hin. unfold stripped_fields in Hin. simpl in Hin.
    destruct Hin as [<- | [<- | [<- | [<- | [<- | [<- | [<- | []]]]]]]];
      eexists; (split; [by lookup_field | apply strip_idempotent]).
Qed.

Lemma emitted_tender_is_well_formed_witness :
  exists t,
    normalize_row (sample_row "  Office chairs " " Invitation to bid " None)
    = RowEmitted t
    /\ dom t = list_to_set tender_fields
    /\ (forall field v, t !! field = Some v -> is_text v)
    /\ t !! "Status" = Some (VStr "Active")
    /\ (forall field, In field stripped_fields ->
          exists text, t !! field = Some (VStr text) /\ strip text = text).
Proof.
  eexists. split; [by vm_compute|].
  apply (emitted_tender_is_well_formed
           (sample_row "  Office chairs " " Invitation to bid " None)).
  by vm_compute.
Defined.

(** X2: the stored Difficulty always agrees with the stored Type,
    although the code classifies the unstripped cell text and stores
    the stripped one. *)
Theorem emitted_difficulty_matches_type (cells : row) (t : tender) :
  normalize_row cells = RowEmitted t ->
  exists type,
    t !! "Type" = Some (VStr type)
    /\ t !! "Difficulty" = Some (VStr (assess_difficulty type)).
Proof.
  intros H. destruct (emitted_record cells t H)
    as (first & title_link & c1 & c2 & c3 & c4 & c5 & c6 & _ & _ & _ & _ & _ & _ & _ & _ & ->).
  exists (strip (cell_text c4)). split; [by lookup_field|].
  rewrite assess_difficulty_strip. by lookup_field.
Qed.

Lemma emitted_difficulty_matches_type_witness :
  exists t,
    normalize_row (sample_row "  Office chairs " " Invitation to bid " None)
    = RowEmitted t
    /\ exists type,
        t !! "Type" = Some (VStr type)
        /\ t !! "Difficulty" = Some (VStr (assess_difficulty type)).
Proof.
  eexists. split; [by vm_compute|].
  apply (emitted_difficulty_matches_type
           (sample_row "  Office chairs " " Invitation to bid " None)).
  by vm_compute.
Defined.

End NormalizerRecords.

Module ClassifierOrder.
Import PyStr PyStrFacts ClassifierTheorems.

Lemma substring_of_extend p pre text post :
  substring_of p text -> substring_of p (pre ++ text ++ post)%string.
Proof.
  intros H. eapply substring_of_trans; [exact H|]. by exists pre, post.
Qed.

Lemma any_in_extend xs pre text post :
  any_in xs text = true -> any_in xs (pre ++ text ++ post)%string = true.
Proof.
  rewrite !any_in_spec. intros (x & Hin & H). exists x. split; [done|].
  by apply substring_of_extend.
Qed.

(** X5: text added before or after a procurement type never makes it
    harder: the rank of the label (Easy=1, Moderate=2, Complex=3) of the
    longer text is at most that of the shorter one. *)
Theorem assess_difficulty_never_harder (pre text post : string) :
  difficulty_rank (assess_difficulty (pre ++ text ++ post)%string)
  <= difficulty_rank (assess_difficulty text).
Proof.
  unfold assess_difficulty.
  destruct (any_in easy_types text) eqn:He.
  - by rewrite (any_in_extend _ pre text post He).
  - destruct (any_in moderate_types text) eqn:Hm.
    + rewrite (any_in_extend _ pre text post Hm).
      by destruct (any_in easy_types (pre ++ text ++ post)%string).
    + by destruct (any_in easy_types (pre ++ text ++ post)%string),
           (any_in moderate_types (pre ++ text ++ post)%string).
Qed.
End ClassifierOrder.

Module RankerLimits.
Import Pandas PandasFacts RankerFacts RankerTheorems.


End RankerLimits.

Section SearchEffects.
Context {W : Type}.

Lemma normalize_rows_kept (tender_rows : list row) :
  Forall2 (fun cells t => normalize_row cells = RowEmitted t)
    (filter (fun cells => is_Some (emitted (normalize_row cells))) tender_rows)
    (normalize_rows tender_rows).
Proof.
  unfold normalize_rows. induction tender_rows as [|cells rows IH]; [constructor|].
  csimpl. destruct (normalize_row cells) as [t| |] eqn:Hrow; simpl.
  - rewrite filter_cons_True by (rewrite Hrow; by eexists). by constructor.
  - rewrite filter_cons_False by (rewrite Hrow; by intros [? ?]). done.
  - rewrite filter_cons_False by (rewrite Hrow; by intros [? ?]). done.
Qed.

Lemma normalize_rows_length (tender_rows : list row) :
  (length (normalize_rows tender_rows) <= length tender_rows)%nat.
Proof.
  unfold normalize_rows. induction tender_rows as [|cells rows IH]; [done|].
  csimpl. destruct (emitted (normalize_row cells)); simpl; lia.
Qed.

(** X4: the search never raises and never touches the sheet.  It prints
    at most the one line of the outer handler, never the line of the
    row handler: after the guard on seven cells no index is out of
    range.  When the browser raises before the loop the result is
    empty; otherwise the result holds, in page order, one tender for
    each row the loop body accepts, also when [driver.quit()] raises
    afterwards. *)
Theorem search_tenders_selenium_effects (b : browser) (σ : world W) :
  exists tenders search_log,
    search_tenders_selenium b σ
    = (Ok tenders, mkWorld (sheet σ) (issued σ) (printed σ ++ search_log))
    /\ (search_log = [] \/ search_log = [LogSeleniumError])
    /\ (b = BrowserRaises -> tenders = [] /\ search_log = [LogSeleniumError])
    /\ (forall tender_rows quit_raises,
          b = BrowserPage tender_rows quit_raises ->
          Forall2 (fun cells t => normalize_row cells = RowEmitted t)
            (filter (fun cells => is_Some (emitted (normalize_row cells)))
                    tender_rows)
            tenders
          /\ (length tenders <= length tender_rows)%nat
          /\ (search_log = [] <-> quit_raises = false)).
Proof.
  destruct b as [|tender_rows quit_raises]; simpl.
  - exists [], [LogSeleniumError]. split; [done|]. split; [by right|].
    split; [done|]. intros ? ? [=].
  - unfold PyM.bind. rewrite row_loop_prints_nothing.
    exists (normalize_rows tender_rows),
      (if quit_raises then [LogSeleniumError] else []).
    split.
    { destruct quit_raises; simpl; [done|]. destruct σ. simpl.
      by rewrite app_nil_r. }
    split; [destruct quit_raises; by auto|]. split; [done|].
    intros rows q [= <- <-]. split; [apply normalize_rows_kept|].
    split; [apply normalize_rows_length|]. by destruct quit_raises.
Qed.
End SearchEffects.

Section ReconcilerReads.
Context {W : Type}.
Variable store : Store W.

(** X8: the reconciler reads nothing of a tender but its ten fields: two
    shortlists whose tenders agree, position by position, on the ten
    fields drive the sheet, the log and the result in the same way. *)
Theorem update_google_sheets_reads_ten_fields
    (tenders tenders' : list tender) (σ : world W) :
  Forall2 (fun a b => forall field, In field tender_fields -> a !! field = b !! field)
          tenders tenders' ->
  update_google_sheets store tenders σ = update_google_sheets store tenders' σ.
Proof.
  intros H. rewrite !update_google_sheets_unfold.
  rewrite (planned_calls_agree store _ _ _ H).
  by rewrite (Forall2_length _ _ _ H).
Qed.

Lemma assign_score_fields (t : tender) field :
  In field tender_fields -> Pandas.assign_score t !! field = t !! field.
Proof.
  intros Hin. unfold Pandas.assign_score. apply lookup_insert_ne.
  intros <-. simpl in Hin. intuition discriminate.
Qed.

Lemma update_google_sheets_issues (tenders : list tender) (σ : world W) :
  exists ok calls,
    update_google_sheets store tenders σ
    = (Ok ok,
       mkWorld (sheet_after store calls (sheet σ)) (issued σ ++ calls)
               (printed σ ++ [if ok : bool then LogUpdated (length tenders)
                              else LogStoreError]))
    /\ calls `prefix_of` planned_calls store (sheet σ) tenders
    /\ (ok = true -> calls = planned_calls store (sheet σ) tenders).
Proof.
  rewrite update_google_sheets_unfold.
  destruct (open_worksheet store (sheet σ)).
  - destruct (all_return_or_first_raise store
                (planned_calls store (sheet σ) tenders) (sheet σ))
      as [Hall | (pre & c & post & Hplan & Hpre & Hc)].
    + rewrite issue_all_returns by done. simpl.
      by exists true, (planned_calls store (sheet σ) tenders).
    + rewrite Hplan. rewrite issue_all_raises by done. simpl.
      exists false, (pre ++ [c]). split; [done|]. split; [|done].
      exists post. by rewrite <- app_assoc.
  - exists false, []. simpl. rewrite app_nil_r. split; [done|]. split; [|done].
    apply prefix_nil.
Qed.
End ReconcilerReads.

Section RunEffects.
Context {W : Type}.
Variable store : Store W.
Variable sort_values_indexer : list (option Z) -> list nat.

Lemma search_tenders_selenium_log (b : browser) (σ : world W) :
  exists search_log,
    (search_log = [] \/ search_log = [LogSeleniumError])
    /\ search_tenders_selenium b σ
       = (Ok (found_tenders b),
          mkWorld (sheet σ) (issued σ) (printed σ ++ search_log)).
Proof.
  destruct b as [|tender_rows quit_raises]; simpl.
  - exists [LogSeleniumError]. by auto.
  - unfold PyM.bind. rewrite row_loop_prints_nothing.
    destruct quit_raises; simpl.
    + exists [LogSeleniumError]. by auto.
    + exists []. destruct σ. simpl. rewrite app_nil_r. by auto.
Qed.

(** What [run] does, step by step. *)
Lemma run_steps (b : browser) (σ : world W) :
  exists search_log top ok calls,
    (search_log = [] \/ search_log = [LogSeleniumError])
    /\ filter_top_tenders sort_values_indexer (found_tenders b) 10 = Some top
    /\ (found_tenders b = [] -> calls = [])
    /\ calls `prefix_of` planned_calls store (sheet σ) top
    /\ (ok = true -> found_tenders b <> [] ->
        calls = planned_calls store (sheet σ) top)
    /\ run store sort_values_indexer b σ
       = (Ok tt,
          mkWorld (sheet_after store calls (sheet σ)) (issued σ ++ calls)
            (printed σ ++ [LogStarted; LogSearching] ++ search_log
             ++ LogFound (length (found_tenders b))
                :: match found_tenders b with
                   | [] => [LogNoTenders]
                   | _ :: _ =>
                       [LogFiltering; LogSelected (length top); LogUpdating;
                        if ok : bool then LogUpdated (length top)
                        else LogStoreError;
                        LogCompleted]
                   end)).
Proof.
  unfold run, PyM.bind at 1 2 3. simpl.
  destruct (search_tenders_selenium_log b
              (mkWorld (sheet σ) (issued σ)
                 ((printed σ ++ [LogStarted]) ++ [LogSearching])))
    as (search_log & Hlog & ->).
  pose proof (PipelineFacts.found_tenders_classified b) as Hc.
  exists search_log.
  destruct (found_tenders b) as [|t tenders] eqn:Hfound.
  - exists [], true, []. split; [done|]. split; [done|]. split; [done|].
    split; [apply prefix_nil|]. split; [done|].
    unfold PyM.bind, PyM.print, PyM.ret. simpl.
    rewrite app_nil_r. by rewrite <- !app_assoc.
  - pose proof (RankerFacts.filter_top_tenders_classified
                  sort_values_indexer (t :: tenders) 10 Hc) as Htop.
    set (top := Pandas.head 10 _) in Htop.
    unfold PyM.bind, PyM.print, PyM.from_option.
    cbn -[filter_top_tenders update_google_sheets].
    rewrite Htop.
    cbn -[filter_top_tenders update_google_sheets Pandas.head].
    match goal with
    | |- context [update_google_sheets store top ?w] =>
        destruct (update_google_sheets_issues store top w)
          as (ok & calls & -> & Hprefix & Hok)
    end.
    exists top, ok, calls. split; [done|]. split; [done|]. split; [done|].
    split; [done|]. split; [by auto|]. simpl.
    by rewrite <- !app_assoc.
Qed.

Lemma head_length {A} (n : Z) (rows : list A) :
  0 <= n -> (length (Pandas.head n rows) <= Z.to_nat n)%nat.
Proof.
  intros Hn. rewrite RankerFacts.head_nonneg by done. rewrite length_take. lia.
Qed.

Lemma appended_rows_planned (w : W) (tenders : list tender) :
  appended_rows (planned_calls store w tenders) = sheet_row <$> tenders.
Proof.
  unfold planned_calls, appended_rows. rewrite omap_app.
  assert (omap (fun c => match c with
                         | AppendRow values => Some values
                         | DeleteRows _ _ => None
                         end)
            (if 1 <? row_count store w
             then [DeleteRows 2 (row_count store w)] else []) = []) as ->
    by (by destruct (1 <? row_count store w)).
  simpl. induction tenders as [|t tenders IH]; [done|].
  rewrite !fmap_cons. csimpl. by rewrite IH.
Qed.

Lemma appended_rows_prefix (calls plan : list store_call) :
  calls `prefix_of` plan ->
  appended_rows calls `prefix_of` appended_rows plan.
Proof.
  intros [rest ->]. unfold appended_rows. rewrite omap_app. by eexists.
Qed.

Lemma delete_of_planned (w : W) (tenders : list tender) i a e :
  planned_calls store w tenders !! i = Some (DeleteRows a e) ->
  i = 0%nat /\ a = 2 /\ e = row_count store w /\ 1 < e.
Proof.
  unfold planned_calls. intros H.
  apply lookup_app_Some in H as [H | [_ H]].
  - destruct (1 <? row_count store w) eqn:Hn; [|done].
    destruct i as [|i]; [|done]. injection H as <- <-. lia.
  - rewrite list_lookup_fmap in H.
    by destruct (tenders !! _).
Qed.

(** X9: [run] never raises, and what it does to the sheet is bounded:
    the calls it issues leave the sheet as they leave it in turn;
    among them are at most ten appends; a [delete_rows] can only be
    the first call, with the arguments 2 and the row count, on a sheet
    with rows beyond the header; and every appended row is the ten
    fields of a tender the search found. *)
Theorem run_store_calls (b : browser) (σ : world W) :
  exists σ' calls,
    run store sort_values_indexer b σ = (Ok tt, σ')
    /\ issued σ' = issued σ ++ calls
    /\ sheet σ' = sheet_after store calls (sheet σ)
    /\ (length (appended_rows calls) <= 10)%nat
    /\ (forall i a e,
          calls !! i = Some (DeleteRows a e) ->
          i = 0%nat /\ a = 2 /\ e = row_count store (sheet σ) /\ 1 < e)
    /\ (forall values,
          values ∈ appended_rows calls ->
          exists t, t ∈ found_tenders b /\ values = sheet_row t).
Proof.
  destruct (run_steps b σ)
    as (search_log & top & ok & calls & _ & Htop & _ & Hprefix & _ & ->).
  pose proof (PipelineFacts.found_tenders_classified b) as Hc.
  eexists _, calls. split; [done|]. simpl. split; [done|]. split; [done|].
  split; [|split].
  - apply appended_rows_prefix in Hprefix.
    rewrite appended_rows_planned in Hprefix.
    apply prefix_length in Hprefix. rewrite length_fmap in Hprefix.
    rewrite RankerFacts.filter_top_tenders_classified in Htop by done.
    injection Htop as <-. pose proof (head_length 10 (A:=tender)) as Hh.
    etransitivity; [exact Hprefix|]. by apply (Hh _).
  - intros i a e Hi. eapply delete_of_planned.
    by eapply prefix_lookup_Some.
  - intros v Hv.
    apply appended_rows_prefix in Hprefix.
    rewrite appended_rows_planned in Hprefix.
    assert (v ∈ sheet_row <$> top) as Hin.
    { destruct Hprefix as [rest ->]. apply elem_of_app. by left. }
    apply list_elem_of_fmap in Hin as (r & -> & Hr).
    destruct (FrameTheorems.ranked_record _ _ _ _ _ Hc Htop Hr)
      as (t & z & Ht & _ & -> & _).
    exists t. split; [done|]. apply sheet_row_agree.
    intros field Hin. apply lookup_insert_ne.
    intros <-. simpl in Hin. intuition discriminate.
Qed.

(** X10: the lines a run prints when the search found [n > 0] tenders:
    the count [n], the size [min n 10] of the shortlist, then either
    the success line with that size, printed only when every planned
    call was issued and returned, or the failure line; the closing
    line follows in both cases, since [run] drops the result of
    [update_google_sheets]. *)
Theorem run_log (b : browser) (σ : world W) :
  Pandas.sorting_indexer sort_values_indexer ->
  found_tenders b <> [] ->
  let n := length (found_tenders b) in
  let m := Nat.min n 10 in
  exists search_log ok top σ',
    run store sort_values_indexer b σ = (Ok tt, σ')
    /\ (search_log = [] \/ search_log = [LogSeleniumError])
    /\ printed σ'
       = printed σ ++ [LogStarted; LogSearching] ++ search_log
         ++ [LogFound n; LogFiltering; LogSelected m; LogUpdating;
             if ok : bool then LogUpdated m else LogStoreError;
             LogCompleted]
    /\ filter_top_tenders sort_values_indexer (found_tenders b) 10 = Some top
    /\ length top = m
    /\ (ok = true ->
        issued σ' = issued σ ++ planned_calls store (sheet σ) top).
Proof.
  intros Hix Hne n m.
  destruct (run_steps b σ)
    as (search_log & top & ok & calls & Hlog & Htop & _ & _ & Hok & ->).
  pose proof (PipelineFacts.found_tenders_classified b) as Hc.
  assert (length top = m) as Hlen.
  { destruct (RankerTheorems.ranked_by_classes sort_values_indexer
                (found_tenders b) 10 Hix Hc ltac:(lia))
      as (out & _ & _ & _ & Hout & _ & _ & _ & _ & Hl).
    rewrite Htop in Hout. injection Hout as <-. rewrite Hl. subst m n. lia. }
  exists search_log, ok, top. eexists. split; [done|]. split; [done|]. simpl.
  split; [|split; [done|split; [done|]]].
  - subst n. destruct (found_tenders b); [done|]. by rewrite Hlen.
  - intros ->. by rewrite Hok.
Qed.
End RunEffects.

Module NormalizerColumns.
Import PyStr NormalizerFacts.

Lemma cell_strip_app (cells extra : row) (i : nat) :
  (i < length cells)%nat -> cell_strip (cells ++ extra) i = cell_strip cells i.
Proof. intros H. unfold cell_strip. by rewrite lookup_app_l. Qed.

Lemma cell_strip_or_na_app (cells extra : row) (i : nat) :
  (i < length cells)%nat ->
  cell_strip_or_na (cells ++ extra) i = cell_strip_or_na cells i.
Proof.
  intros H. unfold cell_strip_or_na. rewrite length_app.
  rewrite !decide_True by lia. by apply cell_strip_app.
Qed.

Lemma build_tender_app (cells extra : row) (title_link : anchor) :
  (7 <= length cells)%nat ->
  build_tender (cells ++ extra) title_link = build_tender cells title_link.
Proof.
  intros H. unfold build_tender, type_text.
  rewrite !cell_strip_app, !cell_strip_or_na_app by lia.
  rewrite length_app. rewrite !decide_True by lia.
  by rewrite lookup_app_l by lia.
Qed.

(** X3: only the first seven cells of a row are read: cells after them
    change neither whether the row is accepted nor the tender it
    gives. *)
Theorem normalize_row_ignores_extra_cells (cells extra : row) :
  (7 <= length cells)%nat ->
  normalize_row (cells ++ extra) = normalize_row cells.
Proof.
  intros H. unfold normalize_row. rewrite length_app.
  rewrite !decide_True by lia. rewrite lookup_app_l by lia.
  destruct (cells !! 0%nat) as [first|]; [|done].
  destruct (cell_link first) as [title_link|]; [|done].
  by rewrite build_tender_app.
Qed.

Lemma normalize_row_ignores_extra_cells_witness :
  (7 <= length (sample_row "Office chairs" "Invitation to bid" None))%nat
  /\ normalize_row (sample_row "Office chairs" "Invitation to bid" None
                    ++ [mkCell "Office desks" (Some (mkAnchor "more" None))])
     = normalize_row (sample_row "Office chairs" "Invitation to bid" None).
Proof.
  split; [simpl; lia|].
  apply (normalize_row_ignores_extra_cells
           (sample_row "Office chairs" "Invitation to bid" None)
           [mkCell "Office desks" (Some (mkAnchor "more" None))]).
  simpl. lia.
Defined.
End NormalizerColumns.

Module RankerErrors.
Import Pandas.

(** X7: the ranker raises, with the [KeyError] of [df['Difficulty']],
    exactly when it is given a list that is not empty in which no
    record has the key [Difficulty]; one record with the key is enough
    for the whole list to be ranked. *)
Theorem filter_top_tenders_key_error indexer (tenders : list tender) (limit : Z) :
  filter_top_tenders indexer tenders limit = None
  <-> tenders <> [] /\ Forall (fun t => t !! "Difficulty" = None) tenders.
Proof.
  unfold filter_top_tenders. destruct tenders as [|t tenders]; [by intuition|].
  set (l := t :: tenders).
  destruct (decide ("Difficulty" ∈ columns l)) as [Hin | Hout].
  - split; [done|]. intros [_ Hall]. exfalso.
    unfold columns in Hin. apply elem_of_union_list in Hin as (X & HX & Hd).
    apply list_elem_of_fmap in HX as (r & -> & Hr).
    apply elem_of_dom in Hd as [v Hv].
    rewrite Forall_forall in Hall. specialize (Hall r Hr). congruence.
  - split; [|done]. intros _. split; [done|].
    apply Forall_forall. intros r Hr. apply not_elem_of_dom.
    intros Hd. apply Hout. unfold columns. apply elem_of_union_list.
    exists (dom r). split; [|done]. apply list_elem_of_fmap. by exists r.
Qed.
End RankerErrors.

Section RunOrder.
Context {W : Type}.
Variable store : Store W.
Variable sort_values_indexer : list (option Z) -> list nat.

Lemma ranked_row_difficulty (t : tender) :
  classified t ->
  exists z,
    Pandas.map_difficulty t = Some z
    /\ (z = 1 \/ z = 2 \/ z = 3)
    /\ difficulty_rank (row_difficulty (sheet_row (Pandas.assign_score t))) = z.
Proof.
  intros [_ [(d & Hd & [z Hz]) _]]. exists z.
  assert (Pandas.map_difficulty t = Some z) as Hm
    by (unfold Pandas.map_difficulty; by rewrite Hd).
  split; [done|]. split; [by eapply RankerFacts.difficulty_order_range|].
  unfold row_difficulty, sheet_row. simpl. unfold get_or_empty, Pandas.assign_score.
  rewrite lookup_insert_ne by done. rewrite Hd. simpl.
  unfold difficulty_rank. by rewrite Hz.
Qed.

Lemma ranked_rows_sorted (rows : list tender) :
  Forall classified rows ->
  Sorted by_score rows ->
  Sorted easier_or_equal (sheet_row <$> (Pandas.assign_score <$> rows)).
Proof.
  intros Hc Hs. induction Hs as [|x l Hs IH Hhd]; [constructor|].
  inversion Hc as [|? ? Hx Hl]; subst. rewrite !fmap_cons.
  constructor; [by apply IH|].
  destruct Hhd as [|y l Hxy]; [constructor|]. rewrite !fmap_cons. constructor.
  inversion Hl as [|? ? Hy _]; subst.
  destruct (ranked_row_difficulty x Hx) as (zx & Hmx & _ & Hrx).
  destruct (ranked_row_difficulty y Hy) as (zy & Hmy & _ & Hry).
  unfold easier_or_equal. rewrite Hrx, Hry.
  unfold by_score, Pandas.score_le in Hxy. rewrite Hmx, Hmy in Hxy.
  simpl in Hxy. lia.
Qed.

Lemma Sorted_prefix {A} (R : relation A) (l k : list A) :
  l `prefix_of` k -> Sorted R k -> Sorted R l.
Proof.
  intros [rest ->]. revert rest. induction l as [|x l IH]; intros rest Hs;
    [constructor|].
  simpl in Hs. inversion Hs as [|? ? Hs' Hhd]; subst.
  constructor; [by eapply IH|].
  destruct l as [|y l]; [constructor|]. simpl in Hhd.
  inversion Hhd; subst. by constructor.
Qed.

Lemma Sorted_head {A} (R : relation A) (n : Z) (rows : list A) :
  Sorted R rows -> Sorted R (Pandas.head n rows).
Proof.
  intros Hs. eapply Sorted_prefix; [|exact Hs].
  unfold Pandas.head. destruct (0 <=? n); apply prefix_take.
Qed.

(** X11: with a sort that keeps the promise of [sort_values], the rows
    a run appends to the sheet come in ascending difficulty: every
    row's Difficulty column holds Easy, Moderate or Complex, and no row
    is followed by an easier one, also when a call raises and the run
    stops appending. *)
Theorem run_appends_easiest_first (b : browser) (σ : world W) :
  Pandas.sorting_indexer sort_values_indexer ->
  exists σ' calls,
    run store sort_values_indexer b σ = (Ok tt, σ')
    /\ issued σ' = issued σ ++ calls
    /\ Sorted easier_or_equal (appended_rows calls)
    /\ Forall (fun values =>
                 In (row_difficulty values) ["Easy"; "Moderate"; "Complex"])
              (appended_rows calls).
Proof.
  intros Hix.
  destruct (run_steps store sort_values_indexer b σ)
    as (search_log & top & ok & calls & _ & Htop & _ & Hprefix & _ & ->).
  pose proof (PipelineFacts.found_tenders_classified b) as Hc.
  eexists _, calls. split; [done|]. simpl. split; [done|].
  apply appended_rows_prefix in Hprefix.
  rewrite appended_rows_planned in Hprefix.
  rewrite RankerFacts.filter_top_tenders_classified in Htop by done.
  injection Htop as <-.
  destruct (RankerFacts.sorted_rows sort_values_indexer (found_tenders b) Hix)
    as [Hperm Hsorted].
  set (full := Pandas.take_rows _ _) in *.
  assert (Forall classified full) as Hfull
    by (by eapply RankerTheorems.classified_perm).
  split.
  - eapply Sorted_prefix; [exact Hprefix|].
    rewrite RankerFacts.head_fmap. apply Sorted_head.
    by apply ranked_rows_sorted.
  - apply Forall_forall. intros v Hv.
    assert (v ∈ sheet_row <$> Pandas.head 10 (Pandas.assign_score <$> full))
      as Hin.
    { destruct Hprefix as [rest ->]. apply elem_of_app. by left. }
    apply list_elem_of_fmap in Hin as (r & -> & Hr).
    apply FrameFacts.elem_of_head in Hr.
    apply list_elem_of_fmap in Hr as (t & -> & Ht).
    rewrite Forall_forall in Hfull. destruct (Hfull t Ht) as [_ [(d & Hd & [z Hz]) _]].
    assert (row_difficulty (sheet_row (Pandas.assign_score t)) = d) as ->.
    { unfold row_difficulty, sheet_row. simpl.
      unfold get_or_empty, Pandas.assign_score.
      rewrite lookup_insert_ne by done. by rewrite Hd. }
    clear -Hz. unfold difficulty_order in Hz.
    apply lookup_insert_Some in Hz as [[<- _] | [_ Hz]]; [simpl; tauto|].
    apply lookup_insert_Some in Hz as [[<- _] | [_ Hz]]; [simpl; tauto|].
    apply lookup_insert_Some in Hz as [[<- _] | [_ Hz]]; [simpl; tauto|].
    by rewrite lookup_empty in Hz.
Qed.
End RunOrder.

Module Examples.
Import Pandas PandasFacts.

(** The reconciler on a scored record and on the record without its
    score. *)
Lemma update_google_sheets_reads_ten_fields_witness :
  Forall2 (fun a b => forall field, In field tender_fields -> a !! field = b !! field)
          [assign_score tender_E1] [tender_E1]
  /\ update_google_sheets TestSheet.store [assign_score tender_E1]
       (TestSheet.fresh_world TestSheet.used_sheet)
     = update_google_sheets TestSheet.store [tender_E1]
         (TestSheet.fresh_world TestSheet.used_sheet).
Proof.
  assert (Forall2 (fun a b : tender =>
                     forall field, In field tender_fields -> a !! field = b !! field)
            [assign_score tender_E1] [tender_E1]) as H.
  { constructor; [|constructor]. intros field Hin. simpl in Hin.
    destruct Hin as [<-|[<-|[<-|[<-|[<-|[<-|[<-|[<-|[<-|[<-|[]]]]]]]]]]];
      by vm_compute. }
  split; [exact H|].
  exact (update_google_sheets_reads_ten_fields TestSheet.store
           [assign_score tender_E1] [tender_E1]
           (TestSheet.fresh_world TestSheet.used_sheet) H).
Defined.

Lemma sample_page_found :
  found_tenders (BrowserPage TestSheet.sample_page false) <> [].
Proof. intros H. apply (f_equal length) in H. vm_compute in H. discriminate. Defined.

(** The lines of a run on the sample page. *)
Lemma run_log_witness :
  sorting_indexer stable_indexer
  /\ found_tenders (BrowserPage TestSheet.sample_page false) <> []
  /\ let n := length (found_tenders (BrowserPage TestSheet.sample_page false)) in
     let m := Nat.min n 10 in
     exists search_log ok top σ',
       run TestSheet.store stable_indexer
         (BrowserPage TestSheet.sample_page false)
         (TestSheet.fresh_world TestSheet.small_sheet) = (Ok tt, σ')
       /\ (search_log = [] \/ search_log = [LogSeleniumError])
       /\ printed σ'
          = printed (TestSheet.fresh_world TestSheet.small_sheet)
            ++ [LogStarted; LogSearching] ++ search_log
            ++ [LogFound n; LogFiltering; LogSelected m; LogUpdating;
                if ok : bool then LogUpdated m else LogStoreError;
                LogCompleted]
       /\ filter_top_tenders stable_indexer
            (found_tenders (BrowserPage TestSheet.sample_page false)) 10
          = Some top
       /\ length top = m
       /\ (ok = true ->
           issued σ'
           = issued (TestSheet.fresh_world TestSheet.small_sheet)
             ++ planned_calls TestSheet.store
                  (sheet (TestSheet.fresh_world TestSheet.small_sheet)) top).
Proof.
  split; [apply stable_indexer_sorting|]. split; [apply sample_page_found|].
  apply (run_log TestSheet.store stable_indexer
           (BrowserPage TestSheet.sample_page false)
           (TestSheet.fresh_world TestSheet.small_sheet)).
  - apply stable_indexer_sorting.
  - apply sample_page_found.
Defined.

(** The rows a run on the sample page appends. *)
Lemma run_appends_easiest_first_witness :
  sorting_indexer stable_indexer
  /\ exists σ' calls,
      run TestSheet.store stable_indexer
        (BrowserPage TestSheet.sample_page false)
        (TestSheet.fresh_world TestSheet.used_sheet) = (Ok tt, σ')
      /\ issued σ'
         = issued (TestSheet.fresh_world TestSheet.used_sheet) ++ calls
      /\ Sorted easier_or_equal (appended_rows calls)
      /\ Forall (fun values =>
                   In (row_difficulty values) ["Easy"; "Moderate"; "Complex"])
                (appended_rows calls).
Proof.
  split; [apply stable_indexer_sorting|].
  apply (run_appends_easiest_first TestSheet.store stable_indexer
           (BrowserPage TestSheet.sample_page false)
           (TestSheet.fresh_world TestSheet.used_sheet)).
  apply stable_indexer_sorting.
Defined.
End Examples.
